(** * The themed slider adapter of components/slider/index.tsx

  A shallow embedding of the [Slider] component: the JavaScript values
  its props hold, the object store in which the props object, the
  [restProps] copy and the [tooltipProps] bag live, the render function
  itself, the handle renderer [handleWithTooltip], and the per-handle
  tooltip state [visibles] with the events that write it. *)

From Stdlib Require Import ZArith DecimalString DecimalZ.
From stdpp Require Import gmap strings list fin_maps.

#[local] Open Scope Z_scope.
#[local] Open Scope string_scope.

(** ** JavaScript values *)

Module JS.

(** Object references. *)
Definition loc := positive.

(** *** Numbers *)

(** A number is a double: [Finite s m e] stands for the double whose
    value is [m * 2^e], negated when [s] is set.  Every finite double
    other than zero is of that form, with [m] of at most 53 bits and [e]
    from -1074 on; [Number_ofZ] gives the double of an integer. *)
Inductive Number :=
| NaN
| Infinity (negative : bool)
| Zero (negative : bool)
| Finite (negative : bool) (m : positive) (e : Z).

#[global] Instance Number_eq_dec : EqDecision Number.
Proof. solve_decision. Defined.

(** [a * 2^two * 10^ten] as a fraction of two integers, and the order of
    two such fractions. *)
Definition scaled (a two ten : Z) : Z * Z :=
  (a * 2 ^ Z.max two 0 * 10 ^ Z.max ten 0,
   2 ^ Z.max (- two) 0 * 10 ^ Z.max (- ten) 0).

Definition compareScaled (x y : Z * Z) : comparison :=
  Z.compare (x.1 * y.2) (y.1 * x.2).

Definition floorScaled (x : Z * Z) : Z := x.1 / x.2.

(** The binary64 form [M * 2^E] of [m * 2^e]: 53 bits in [M], or fewer
    with [E = -1074] for a subnormal. *)
Definition significand (m : positive) (e : Z) : Z * Z :=
  let E := Z.max (e + Z.pos (Pos.size m) - 53) (-1074) in
  (if (E <=? e)%Z then Z.pos m * 2 ^ (e - E) else Z.pos m / 2 ^ (E - e), E).

(** The double nearest to a positive integer, ties to the even
    significand. *)
Definition roundPos (p : positive) : Number :=
  let shift := Z.pos (Pos.size p) - 53 in
  if (shift <=? 0)%Z then Finite false p 0
  else
    let q := Z.pos p / 2 ^ shift in
    let r := Z.pos p mod 2 ^ shift in
    let half := 2 ^ (shift - 1) in
    let q' := match Z.compare r half with
              | Lt => q
              | Gt => q + 1
              | Eq => if Z.even q then q else q + 1
              end in
    if (1024 <? Z.log2 q' + 1 + shift)%Z then Infinity false
    else Finite false (Z.to_pos q') shift.

Definition Number_negate (x : Number) : Number :=
  match x with
  | NaN => NaN
  | Infinity s => Infinity (negb s)
  | Zero s => Zero (negb s)
  | Finite s m e => Finite (negb s) m e
  end.

(** The number that an integer literal denotes. *)
Definition Number_ofZ (z : Z) : Number :=
  match z with
  | 0 => Zero false
  | Z.pos p => roundPos p
  | Z.neg p => Number_negate (roundPos p)
  end.

(** [x === y] on numbers: [NaN] equals nothing, the two zeros are
    equal. *)
Definition Number_eqb (x y : Number) : bool :=
  match x, y with
  | Infinity s1, Infinity s2 => Bool.eqb s1 s2
  | Zero _, Zero _ => true
  | Finite s1 m1 e1, Finite s2 m2 e2 =>
      Bool.eqb s1 s2
      && match compareScaled (scaled (Z.pos m1) e1 0) (scaled (Z.pos m2) e2 0)
         with Eq => true | _ => false end
  | _, _ => false
  end.

Definition digitsOf (s : Z) : string := NilZero.string_of_int (Z.to_int s).

Fixpoint zeros (n : nat) : string :=
  match n with
  | O => ""
  | S n => "0" +:+ zeros n
  end.

(** The least [n], from [n] on, with [v < 10^n]. *)
Fixpoint decimalExponent (fuel : nat) (n : Z) (v : Z * Z) : Z :=
  match fuel with
  | O => n
  | S fuel =>
      match compareScaled v (scaled 1 0 n) with
      | Lt => n
      | _ => decimalExponent fuel (n + 1) v
      end
  end.

Section Shortest.

(** The double [M * 2^E], and the reals that round to it: those between
    the midpoints to its two neighbours, the midpoints included when [M]
    is even. *)
Variables (M E : Z).

Definition inInterval (c : Z * Z) : bool :=
  let lo := scaled (if ((M =? 2 ^ 52) && (-1074 <? E))%Z
                    then 4 * M - 1 else 4 * M - 2) (E - 2) 0 in
  let hi := scaled (4 * M + 2) (E - 2) 0 in
  match compareScaled lo c with
  | Lt => true
  | Eq => Z.even M
  | Gt => false
  end
  && match compareScaled c hi with
     | Lt => true
     | Eq => Z.even M
     | Gt => false
     end.

(** The integers [(s, k, n)] of Number::toString: [s] has [k] digits,
    [s * 10^(n-k)] rounds to the double, [k] is as small as possible, and
    of two such [s] the nearer to the double is taken. *)
Fixpoint shortest (fuel : nat) (k n0 : Z) : Z * Z * Z :=
  let p := n0 - k in
  let s_lo := floorScaled (scaled (4 * M) (E - 2) (- p)) in
  let s_hi := s_lo + 1 in
  let pick s := if (s =? 10 ^ k)%Z then (1, 1, n0 + 1) else (s, k, n0) in
  match inInterval (scaled s_lo 0 p), inInterval (scaled s_hi 0 p) with
  | true, true =>
      match compareScaled (scaled (2 * s_lo + 1) 0 p)
                          (scaled (8 * M) (E - 2) 0) with
      | Gt => pick s_lo
      | Lt => pick s_hi
      | Eq => pick (if Z.even s_lo then s_lo else s_hi)
      end
  | true, false => pick s_lo
  | false, true => pick s_hi
  | false, false =>
      match fuel with
      | O => pick s_lo
      | S fuel => shortest fuel (k + 1) n0
      end
  end.

End Shortest.

(** The text for the digits [s] and the exponent [n]: plain digits up to
    [10^21], a decimal point down to [10^-6], exponent notation beyond. *)
Definition formatDigits (s k n : Z) : string :=
  let D := digitsOf s in
  if ((k <=? n) && (n <=? 21))%Z then D +:+ zeros (Z.to_nat (n - k))
  else if ((0 <? n) && (n <=? 21))%Z
  then String.substring 0 (Z.to_nat n) D +:+ "."
       +:+ String.substring (Z.to_nat n) (Z.to_nat (k - n)) D
  else if ((-6 <? n) && (n <=? 0))%Z
  then "0." +:+ zeros (Z.to_nat (- n)) +:+ D
  else
    let ex := n - 1 in
    let sign := if (0 <=? ex)%Z then "+" else "-" in
    if (k =? 1)%Z then D +:+ "e" +:+ sign +:+ digitsOf (Z.abs ex)
    else String.substring 0 1 D +:+ "."
         +:+ String.substring 1 (Z.to_nat (k - 1)) D
         +:+ "e" +:+ sign +:+ digitsOf (Z.abs ex).

(** [Number.prototype.toString] in radix 10. *)
Definition Number_toString (x : Number) : string :=
  match x with
  | NaN => "NaN"
  | Infinity negative => if negative then "-Infinity" else "Infinity"
  | Zero _ => "0"
  | Finite negative m e =>
      let '(M, E) := significand m e in
      let start := ((Z.log2 M + E) * 30103) / 100000 - 1 in
      let n0 := decimalExponent 8 start (scaled (4 * M) (E - 2) 0) in
      let '(s, k, n) := shortest M E 17 1 n0 in
      (if negative then "-" else "") +:+ formatDigits s k n
  end.

(** *** Values *)

(** Function values.  The component creates three kinds of closures;
    every other function (a caller's [tipFormatter], the container
    resolvers) comes from outside and is known by an identifier only.
    The handle renderer that a render pass hands out is a closure of that
    pass: it holds the [visibles] and the [props] of the pass. *)
Inductive Closure :=
| External (id : positive)
| DefaultTipFormatter
    (* Slider.defaultProps.tipFormatter *)
| HandleFn (visibles : gmap string bool) (props : loc)
           (tooltipPrefixCls prefixCls : string)
    (* (info) => handleWithTooltip({ tooltipPrefixCls, prefixCls, info }) *)
| ToggleFn (index : Z) (visible : bool).
    (* () => toggleTooltipVisible(index, visible) *)

Inductive Value :=
| VUndefined
| VNull
| VBool (b : bool)
| VNumber (x : Number)
| VString (s : string)
| VObject (l : loc)
| VFunction (c : Closure).

#[global] Instance Closure_eq_dec : EqDecision Closure.
Proof. solve_decision. Defined.

#[global] Instance Value_eq_dec : EqDecision Value.
Proof. solve_decision. Defined.

(** ToBoolean. *)
Definition truthy (v : Value) : bool :=
  match v with
  | VUndefined | VNull => false
  | VBool b => b
  | VNumber (NaN | Zero _) => false
  | VNumber (Infinity _ | Finite _ _ _) => true
  | VString s => negb (String.eqb s "")
  | VObject _ | VFunction _ => true
  end.

(** [typeof v]. *)
Definition typeof (v : Value) : string :=
  match v with
  | VUndefined => "undefined"
  | VNull | VObject _ => "object"
  | VBool _ => "boolean"
  | VNumber _ => "number"
  | VString _ => "string"
  | VFunction _ => "function"
  end.

(** [a === b].  Function values are compared by what they are closed
    over; the component compares no function with another. *)
Definition strict_eq (a b : Value) : bool :=
  match a, b with
  | VNumber x, VNumber y => Number_eqb x y
  | _, _ => bool_decide (a = b)
  end.

(** [a || b], [a && b] and [!a]: the binary operators return one of
    their operands, not a boolean. *)
Definition js_or (a b : Value) : Value := if truthy a then a else b.
Definition js_and (a b : Value) : Value := if truthy a then b else a.
Definition js_not (a : Value) : Value := VBool (negb (truthy a)).

(** The property key of a handle index.  The indices are those of the
    primitive's array of handles, and the key of an array index is its
    decimal digits. *)
Definition ToPropertyKey (n : Z) : string := digitsOf n.

(** Objects are property bags; a missing property reads as
    [undefined]. *)
Abbreviation Obj := (gmap string Value).

Definition get (o : Obj) (k : string) : Value := default VUndefined (o !! k).

(** The object store. *)
Abbreviation Heap := (gmap loc Obj).

(** Abrupt completions.  [TypeError] is the exception that a property
    read on [undefined] or [null], or a call of a non-function, raises.
    [OutsideModel] marks shapes that the TypeScript prop types exclude
    and that the embedding does not follow: a primitive where an object
    is demanded, a reference that the store does not hold, one of the
    component's own closures handed back as a caller prop. *)
Inductive Error := TypeError | OutsideModel.

Inductive Completion (A : Type) :=
| Normal (a : A)
| Throw (e : Error).
Arguments Normal {A} a.
Arguments Throw {A} e.

(** Computations over the store.  The store survives a throw. *)
Definition M (A : Type) : Type := Heap → Completion A * Heap.

Definition ret {A} (a : A) : M A := λ h, (Normal a, h).

Definition throw {A} (e : Error) : M A := λ h, (Throw e, h).

Definition bind {A B} (m : M A) (k : A → M B) : M B :=
  λ h, match m h with
       | (Normal a, h') => k a h'
       | (Throw e, h') => (Throw e, h')
       end.

(** [{ ... }] as a fresh object. *)
Definition alloc (o : Obj) : M loc :=
  λ h, let l := fresh (dom h) in (Normal l, <[l := o]> h).

(** The own properties of the object behind a reference. *)
Definition readObj (l : loc) : M Obj :=
  λ h, match h !! l with
       | Some o => (Normal o, h)
       | None => (Throw OutsideModel, h)
       end.

(** [v.k] *)
Definition getProp (v : Value) (k : string) : M Value :=
  match v with
  | VUndefined | VNull => throw TypeError
  | VObject l => bind (readObj l) (λ o, ret (get o k))
  | VBool _ | VNumber _ | VString _ | VFunction _ => throw OutsideModel
  end.

(** [v.k = x] on an object reference. *)
Definition setProp (l : loc) (k : string) (x : Value) : M unit :=
  λ h, match h !! l with
       | Some o => (Normal tt, <[l := <[k := x]> o]> h)
       | None => (Throw OutsideModel, h)
       end.

(** The properties that [{...v}] copies. *)
Definition ownProps (v : Value) : M Obj :=
  match v with
  | VUndefined | VNull => ret ∅
  | VObject l => readObj l
  | VBool _ | VNumber _ | VString _ | VFunction _ => throw OutsideModel
  end.

#[global] Instance M_ret : MRet M := @ret.
#[global] Instance M_bind : MBind M := λ A B k m, bind m k.

End JS.

Import JS.


(** ** React elements *)

Inductive Component := RcSlider | RcRange | RcHandle | SliderTooltip.

#[global] Instance Component_eq_dec : EqDecision Component.
Proof. solve_decision. Defined.

(** The key of an element: [null] or a string.  [KeyOf v] is the string
    ['' + v] of an object or a function [v], a text that the embedding
    does not spell out. *)
Inductive Key :=
| KeyNull
| KeyString (s : string)
| KeyOf (v : Value).

(** An element: its type, key and ref, its props but for
    [props.children], and the elements that are its [props.children]. *)
Inductive Element :=
| El (type : Component) (key : Key) (ref : Value) (props : Obj)
     (children : list Element).

Definition el_type (e : Element) : Component :=
  let 'El t _ _ _ _ := e in t.
Definition el_key (e : Element) : Key :=
  let 'El _ k _ _ _ := e in k.
Definition el_ref (e : Element) : Value :=
  let 'El _ _ r _ _ := e in r.
Definition el_props (e : Element) : Obj :=
  let 'El _ _ _ p _ := e in p.
Definition el_children (e : Element) : list Element :=
  let 'El _ _ _ _ c := e in c.

(** The attributes of a JSX tag, in the order they are written:
    [name={v}] or [{...o}]. *)
Inductive JsxAttr :=
| Attr (k : string) (v : Value)
| Spread (o : Obj).

(** A later attribute overrides an earlier one of the same name, and a
    spread overrides whatever precedes it. *)
Definition jsxConfig (attrs : list JsxAttr) : Obj :=
  foldl (λ acc a, match a with
                  | Attr k v => <[k := v]> acc
                  | Spread o => o ∪ acc
                  end) ∅ attrs.

(** React fills in a default for each prop that is [undefined]. *)
Definition resolveDefaultProps (defaults config : Obj) : Obj :=
  map_fold (λ k d acc,
              if strict_eq (get config k) VUndefined
              then <[k := d]> acc else acc) config defaults.

(** ['' + config.key] when the config has a key, [null] otherwise. *)
Definition keyOf (key : Value) : Key :=
  match key with
  | VUndefined => KeyNull
  | VNull => KeyString "null"
  | VBool b => KeyString (if b then "true" else "false")
  | VNumber x => KeyString (Number_toString x)
  | VString s => KeyString s
  | VObject _ | VFunction _ => KeyOf key
  end.

(** [config.ref] when the config has a ref, [null] otherwise. *)
Definition refOf (ref : Value) : Value :=
  if strict_eq ref VUndefined then VNull else ref.

(** [React.createElement(type, config, ...children)] for a type that
    declares [defaultProps].  The reserved names [key], [ref], [__self]
    and [__source] are no props; children given in the call replace a
    [children] entry of the config; a prop that is then [undefined] gets
    the type's default. *)
Definition createElement (defaultProps : Obj) (type : Component)
    (config : Obj) (children : list Element) : Element :=
  let own :=
    delete "key" (delete "ref" (delete "__self" (delete "__source" config))) in
  let props := resolveDefaultProps defaultProps own in
  El type (keyOf (get config "key")) (refOf (get config "ref"))
     (match children with
      | [] => props
      | _ :: _ => delete "children" props
      end)
     children.

(** [<type attrs>children</type>] *)
Definition jsx (defaultProps : Obj) (type : Component)
    (attrs : list JsxAttr) (children : list Element) : Element :=
  createElement defaultProps type (jsxConfig attrs) children.

(** ** Collaborators *)

(** What [React.useContext(ConfigContext)] yields. *)
Record ConfigConsumerProps := {
  getPrefixCls : Value → Value → string;
  direction : Value;
  getPopupContainer : Value;
}.

(** The default props that the slider package declares for its two
    sliders.  The package is not among the sources; the tables are taken
    as they come. *)
Record Primitives := {
  RcSlider_defaultProps : Obj;
  RcRange_defaultProps : Obj;
}.

(** Modelled from the spec: the default props of the handle of the
    slider package, which is not among the sources.  The spec names no
    option of the handle that the renderer leaves to a default, and the
    handle is taken to declare none. *)
Definition RcHandle_defaultProps : Obj := ∅.

(** Modelled from the spec: the default props of the tooltip wrapper
    [./SliderTooltip], which is not among the sources.  The spec names no
    option of the tooltip that the renderer leaves to a default, and the
    wrapper is taken to declare none. *)
Definition SliderTooltip_defaultProps : Obj := ∅.

(** [classNames(className, { [key]: cond })] of the classnames package:
    the truthy string or number argument, then the keys of the object
    whose value is truthy, separated by a space. *)
Definition classNames (className : Value) (key : string) (cond : bool)
    : string :=
  let first :=
    match className with
    | VString s => if truthy className then [s] else []
    | VNumber x => if truthy className then [Number_toString x] else []
    | _ => []
    end in
  String.concat " " (first ++ (if cond then [key] else [])).

(** Modelled from the spec: [getTransitionName] of [../_util/motion] is
    not among the sources.  The transition name "is derived from an
    ambient theming root name combined with a fixed animation identifier
    [...] unless the caller supplies an explicit override, which wins". *)
Definition getTransitionName (rootPrefixCls motion : string)
    (transitionName : Value) : Value :=
  if strict_eq transitionName VUndefined
  then VString (rootPrefixCls +:+ "-" +:+ motion)
  else transitionName.

(** ** The component *)

(** [Visibles = { [index: number]: boolean }] *)
Abbreviation Visibles := (gmap string bool).

(** [visibles[index]] *)
Definition visiblesAt (visibles : Visibles) (index : Z) : Value :=
  match visibles !! ToPropertyKey index with
  | Some b => VBool b
  | None => VUndefined
  end.

(** What the slider primitive hands to the handle generator:
    [{ value, dragging, index, ...restProps }]. *)
Record HandleGeneratorInfo := {
  value : Value;
  dragging : Value;
  index : Z;
  restProps : Obj;
}.

(** [Slider.defaultProps.tipFormatter] *)
Definition tipFormatter (value : Value) : Value :=
  if String.eqb (typeof value) "number"
  then match value with
       | VNumber x => VString (Number_toString x)
       | _ => VString ""
       end
  else VString "".

Definition Slider_defaultProps : Obj :=
  {[ "tipFormatter" := VFunction DefaultTipFormatter ]}.

(** [f(arg)] for a function that renders a tooltip title.  A caller's
    function is asked from [extern]; it returns a value or throws, and
    leaves the store alone. *)
Definition applyFunction (extern : positive → Value → Completion Value)
    (f arg : Value) : Completion Value :=
  match f with
  | VFunction DefaultTipFormatter => Normal (tipFormatter arg)
  | VFunction (External id) => extern id arg
  | VFunction (HandleFn _ _ _ _) | VFunction (ToggleFn _ _) =>
      Throw OutsideModel
  | _ => Throw TypeError
  end.

Definition call (extern : positive → Value → Completion Value)
    (f arg : Value) : M Value :=
  λ h, (applyFunction extern f arg, h).

(** [(prev) => ({ ...prev, [index]: visible })], the update that
    [toggleTooltipVisible(index, visible)] passes to [setVisibles]. *)
Definition toggleTooltipVisible (index : Z) (visible : bool)
    : Visibles → Visibles :=
  λ prev, <[ToPropertyKey index := visible]> prev.

Section Render.

(** The scope of one render pass: the render function's arguments and
    what its hooks return. *)
Variable extern : positive → Value → Completion Value.
Variable rc : Primitives.
Variable context : ConfigConsumerProps.
Variable visibles : Visibles.
Variable props : loc.
Variable ref : Value.

Definition getTooltipPlacement (tooltipPlacement vertical : Value) : Value :=
  if truthy tooltipPlacement then tooltipPlacement
  else if negb (truthy vertical) then VString "top"
  else if strict_eq (direction context) (VString "rtl")
       then VString "left" else VString "right".

(** [const isTipFormatter = tipFormatter ? visibles[index] || dragging : false] *)
Definition isTipFormatter (tipFormatter dragging : Value) (index : Z)
    : Value :=
  if truthy tipFormatter
  then js_or (visiblesAt visibles index) dragging
  else VBool false.

(** [const visible = tooltipVisible ||
                     (tooltipVisible === undefined && isTipFormatter)] *)
Definition visible (tooltipVisible isTipFormatter : Value) : Value :=
  js_or tooltipVisible
        (js_and (VBool (strict_eq tooltipVisible VUndefined)) isTipFormatter).

Definition handleWithTooltip (tooltipPrefixCls prefixCls : string)
    (info : HandleGeneratorInfo) : M Element :=
  let value := value info in
  let dragging := dragging info in
  let index := index info in
  let restProps := restProps info in
  p ← readObj props;
  let tipFormatter := get p "tipFormatter" in
  let tooltipVisible := get p "tooltipVisible" in
  let tooltipPlacement := get p "tooltipPlacement" in
  let getTooltipPopupContainer := get p "getTooltipPopupContainer" in
  tooltipProps ← (if strict_eq (get p "tooltipProps") VUndefined
                  then l ← alloc ∅; mret (VObject l)
                  else mret (get p "tooltipProps"));
  let vertical := get p "vertical" in
  let isTipFormatter := isTipFormatter tipFormatter dragging index in
  let visible := visible tooltipVisible isTipFormatter in
  let rootPrefixCls := getPrefixCls context VUndefined VUndefined in
  tooltipProps_transitionName ← getProp tooltipProps "transitionName";
  let transitionName :=
    getTransitionName rootPrefixCls "zoom-down" tooltipProps_transitionName in
  title ← (if truthy tipFormatter
           then call extern tipFormatter value
           else mret (VString ""));
  spread ← ownProps tooltipProps;
  mret
    (jsx SliderTooltip_defaultProps SliderTooltip
       [ Attr "prefixCls" (VString tooltipPrefixCls);
         Attr "title" title;
         Attr "visible" visible;
         Attr "placement" (getTooltipPlacement tooltipPlacement vertical);
         Attr "key" (VNumber (Number_ofZ index));
         Attr "overlayClassName" (VString (prefixCls +:+ "-tooltip"));
         Attr "getPopupContainer"
              (js_or getTooltipPopupContainer (getPopupContainer context));
         Spread spread;
         Attr "transitionName" transitionName ]
       [ jsx RcHandle_defaultProps RcHandle
           [ Spread restProps;
             Attr "value" value;
             Attr "onMouseEnter" (VFunction (ToggleFn index true));
             Attr "onMouseLeave" (VFunction (ToggleFn index false)) ]
           [] ]).

(** The render function that [React.forwardRef] wraps. *)
Definition Slider : M Element :=
  p ← readObj props;
  let customizePrefixCls := get p "prefixCls" in
  let customizeTooltipPrefixCls := get p "tooltipPrefixCls" in
  let range := get p "range" in
  let className := get p "className" in
  restProps ← alloc (delete "className" (delete "range"
                       (delete "tooltipPrefixCls" (delete "prefixCls" p))));
  let prefixCls := getPrefixCls context (VString "slider") customizePrefixCls in
  let tooltipPrefixCls :=
    getPrefixCls context (VString "tooltip") customizeTooltipPrefixCls in
  let cls := classNames className (prefixCls +:+ "-rtl")
               (strict_eq (direction context) (VString "rtl")) in
  (* make reverse default on rtl direction *)
  (if strict_eq (direction context) (VString "rtl")
   then restProps_vertical ← getProp (VObject restProps) "vertical";
        if negb (truthy restProps_vertical)
        then restProps_reverse ← getProp (VObject restProps) "reverse";
             setProp restProps "reverse" (js_not restProps_reverse)
        else mret tt
   else mret tt);;
  (* extrack draggableTrack from range={{ ... }} *)
  draggableTrack ← (if String.eqb (typeof range) "object"
                    then getProp range "draggableTrack"
                    else mret VUndefined);
  if truthy range then
    spread ← ownProps (VObject restProps);
    step ← getProp (VObject restProps) "step";
    mret (jsx (RcRange_defaultProps rc) RcRange
            [ Spread spread;
              Attr "step" step;
              Attr "draggableTrack" draggableTrack;
              Attr "className" (VString cls);
              Attr "ref" ref;
              Attr "handle"
                   (VFunction
                      (HandleFn visibles props tooltipPrefixCls prefixCls));
              Attr "prefixCls" (VString prefixCls) ]
            [])
  else
    spread ← ownProps (VObject restProps);
    step ← getProp (VObject restProps) "step";
    mret (jsx (RcSlider_defaultProps rc) RcSlider
            [ Spread spread;
              Attr "step" step;
              Attr "className" (VString cls);
              Attr "ref" ref;
              Attr "handle"
                   (VFunction
                      (HandleFn visibles props tooltipPrefixCls prefixCls));
              Attr "prefixCls" (VString prefixCls) ]
            []).

End Render.

(** ** The mounted component *)

(** The state that outlives a render pass: what [useState] keeps, and the
    object store. *)
Record State := {
  st_visibles : Visibles;
  st_heap : Heap;
}.

(** Calling a function value as an event handler.  [setVisibles] is
    captured by [toggleTooltipVisible] alone, so only the closures that
    call it reach the state. *)
Definition invoke (c : Closure) (visibles : Visibles) : Visibles :=
  match c with
  | ToggleFn index visible => toggleTooltipVisible index visible visibles
  | External _ | DefaultTipFormatter | HandleFn _ _ _ _ => visibles
  end.

(** The event system calls the handler that the target element carries
    under [handler], if it carries one. *)
Definition dispatch (handler : string) (target : Element)
    (visibles : Visibles) : Visibles :=
  match get (el_props target) handler with
  | VFunction c => invoke c visibles
  | _ => visibles
  end.

Inductive Event :=
| Render (props : loc) (ref : Value)
    (* a render pass of the component *)
| Handle (props : loc) (tooltipPrefixCls prefixCls : string)
         (info : HandleGeneratorInfo)
    (* the slider primitive calls its [handle] prop *)
| MouseEnter (target : Element)
| MouseLeave (target : Element).

Section Mounted.

Variable extern : positive → Value → Completion Value.
Variable rc : Primitives.
Variable context : ConfigConsumerProps.

Definition step (s : State) (e : Event) : State :=
  match e with
  | Render props ref =>
      {| st_visibles := st_visibles s;
         st_heap := snd (Slider rc context (st_visibles s) props ref
                           (st_heap s)) |}
  | Handle props tooltipPrefixCls prefixCls info =>
      {| st_visibles := st_visibles s;
         st_heap := snd (handleWithTooltip extern context (st_visibles s)
                           props tooltipPrefixCls prefixCls info
                           (st_heap s)) |}
  | MouseEnter target =>
      {| st_visibles := dispatch "onMouseEnter" target (st_visibles s);
         st_heap := st_heap s |}
  | MouseLeave target =>
      {| st_visibles := dispatch "onMouseLeave" target (st_visibles s);
         st_heap := st_heap s |}
  end.

Definition run (s : State) (events : list Event) : State :=
  foldl step s events.

End Mounted.

(** A computation preserves the store when every object that the store
    holds before it runs is held unchanged after it. *)
Definition preserves {A} (m : M A) : Prop :=
  ∀ (h : Heap) l o, h !! l = Some o → (m h).2 !! l = Some o.

(** ** The handle prop *)

(** [handle(info)], as the slider primitive calls the [handle] prop that
    a render pass gave it:
    [(info) => handleWithTooltip({ tooltipPrefixCls, prefixCls, info })],
    with the [visibles] and the [props] of that pass. *)
Definition callHandle (extern : positive → Value → Completion Value)
    (context : ConfigConsumerProps) (handle : Value)
    (info : HandleGeneratorInfo) : M Element :=
  match handle with
  | VFunction (HandleFn visibles props tooltipPrefixCls prefixCls) =>
      handleWithTooltip extern context visibles props tooltipPrefixCls
        prefixCls info
  | VFunction _ => throw OutsideModel
  | _ => throw TypeError
  end.

(** ** Sample inputs *)

(** A context as the configuration provider supplies it by default:
    root prefix [ant], no container resolver. *)
Definition sampleContext (direction : Value) : ConfigConsumerProps :=
  {| getPrefixCls := λ suffixCls customizePrefixCls,
       match customizePrefixCls, suffixCls with
       | VString c, VString s =>
           if truthy customizePrefixCls then c
           else if truthy suffixCls then "ant-" +:+ s else "ant"
       | VString c, _ => if truthy customizePrefixCls then c else "ant"
       | _, VString s => if truthy suffixCls then "ant-" +:+ s else "ant"
       | _, _ => "ant"
       end;
     direction := direction;
     getPopupContainer := VUndefined |}.

(** Default props of the two sliders as the slider package declares
    them, as far as the samples need them. *)
Definition samplePrimitives : Primitives :=
  {| RcSlider_defaultProps :=
       {[ "min" := VNumber (Number_ofZ 0);
          "max" := VNumber (Number_ofZ 100);
          "step" := VNumber (Number_ofZ 1);
          "vertical" := VBool false;
          "reverse" := VBool false ]};
     RcRange_defaultProps :=
       {[ "min" := VNumber (Number_ofZ 0);
          "max" := VNumber (Number_ofZ 100);
          "step" := VNumber (Number_ofZ 1);
          "vertical" := VBool false;
          "reverse" := VBool false;
          "draggableTrack" := VBool false ]} |}.

(** [<Slider step={null} />], after React has filled in the default
    props, stored at reference 1. *)
Definition singleProps : Obj :=
  resolveDefaultProps Slider_defaultProps {[ "step" := VNull ]}.

Definition singleHeap : Heap := {[ 1%positive := singleProps ]}.

(** [<Slider range={{ draggableTrack: true }} reverse tooltipVisible={false} />]
    at reference 1, its [range] object at reference 2. *)
Definition rangeProps : Obj :=
  resolveDefaultProps Slider_defaultProps
    {[ "range" := VObject 2%positive;
       "reverse" := VBool true;
       "tooltipVisible" := VBool false ]}.

Definition rangeHeap : Heap :=
  {[ 1%positive := rangeProps;
     2%positive := {[ "draggableTrack" := VBool true ]} ]}.

(** The first handle, showing 5, under the pointer and being dragged. *)
Definition sampleInfo : HandleGeneratorInfo :=
  {| value := VNumber (Number_ofZ 5); dragging := VBool true; index := 0;
     restProps := ∅ |}.

Definition sampleVisibles : Visibles := {[ "0" := true ]}.

(** No caller function is called in the samples. *)
Definition noExtern : positive → Value → Completion Value :=
  λ _ _, Throw OutsideModel.

(** [<Slider tooltipProps={{ placement: 'bottom', transitionName: 'fade' }} />]
    at reference 1, the bag at reference 2. *)
Definition bagProps : Obj :=
  resolveDefaultProps Slider_defaultProps
    {[ "tooltipProps" := VObject 2%positive ]}.

Definition sampleBag : Obj :=
  {[ "placement" := VString "bottom"; "transitionName" := VString "fade" ]}.

Definition bagHeap : Heap :=
  {[ 1%positive := bagProps; 2%positive := sampleBag ]}.

(** A handle as the renderer produces it for index 0, and a session:
    the pointer enters the handle, the component renders again, the
    pointer leaves. *)
Definition sampleHandle : Element :=
  jsx RcHandle_defaultProps RcHandle
    [ Attr "onMouseEnter" (VFunction (ToggleFn 0 true));
      Attr "onMouseLeave" (VFunction (ToggleFn 0 false)) ] [].

Definition sampleEvents : list Event :=
  [ MouseEnter sampleHandle; Render 1%positive VNull;
    MouseLeave sampleHandle ].

(** [<Slider className="mine" prefixCls="my-slider" min={0} handle={f} />]
    at reference 1. *)
Definition customProps : Obj :=
  resolveDefaultProps Slider_defaultProps
    {[ "className" := VString "mine";
       "prefixCls" := VString "my-slider";
       "min" := VNumber (Number_ofZ 0);
       "handle" := VFunction (External 7) ]}.

Definition customHeap : Heap := {[ 1%positive := customProps ]}.

(** [<Slider range={null} />] and [<Slider tooltipProps={null} />]. *)
Definition nullRangeHeap : Heap :=
  {[ 1%positive :=
       resolveDefaultProps Slider_defaultProps {[ "range" := VNull ]} ]}.

Definition nullBagHeap : Heap :=
  {[ 1%positive :=
       resolveDefaultProps Slider_defaultProps
         {[ "tooltipProps" := VNull ]} ]}.

(** [<Slider tipFormatter={null} />] *)
Definition noFormatterConfig : Obj := {[ "tipFormatter" := VNull ]}.

Definition noFormatterHeap : Heap :=
  {[ 1%positive := resolveDefaultProps Slider_defaultProps noFormatterConfig ]}.

(** What the primitive passes for its second handle: its own pointer
    handler and a ref to keep the handle instance. *)
Definition primitiveInfo : HandleGeneratorInfo :=
  {| value := VNumber (Number_ofZ 40); dragging := VBool false; index := 1;
     restProps := {[ "onMouseEnter" := VFunction (External 3);
                     "ref" := VFunction (External 4);
                     "offset" := VNumber (Number_ofZ 40) ]} |}.


(** * Properties *)

(** ** Reading property bags *)

Lemma get_insert_eq (o : Obj) k v : get (<[k := v]> o) k = v.
Proof. unfold get. by rewrite lookup_insert_eq. Qed.

Lemma get_insert_ne (o : Obj) k k' v : k ≠ k' → get (<[k := v]> o) k' = get o k'.
Proof. intros. unfold get. by rewrite lookup_insert_ne. Qed.

Lemma get_delete_ne (o : Obj) k k' : k ≠ k' → get (delete k o) k' = get o k'.
Proof. intros. unfold get. by rewrite lookup_delete_ne. Qed.

(** Strict equality with a value that is no number is equality. *)
Lemma strict_eq_decide a b :
  (∀ x, b ≠ VNumber x) → strict_eq a b = bool_decide (a = b).
Proof. intros Hb. destruct a, b; try done. by destruct (Hb x0). Qed.

Lemma strict_eq_true a b :
  (∀ x, b ≠ VNumber x) → strict_eq a b = true ↔ a = b.
Proof. intros Hb. rewrite strict_eq_decide by done. apply bool_decide_eq_true. Qed.

Lemma strict_eq_false a b :
  (∀ x, b ≠ VNumber x) → strict_eq a b = false ↔ a ≠ b.
Proof. intros Hb. rewrite strict_eq_decide by done. apply bool_decide_eq_false. Qed.

(** ** Creating elements *)

Lemma resolveDefaultProps_empty (config : Obj) :
  resolveDefaultProps ∅ config = config.
Proof. apply map_fold_empty. Qed.

Lemma resolveDefaultProps_lookup (defaults config : Obj) k :
  resolveDefaultProps defaults config !! k
  = if strict_eq (get config k) VUndefined
    then match defaults !! k with
         | Some d => Some d
         | None => config !! k
         end
    else config !! k.
Proof.
  unfold resolveDefaultProps.
  induction defaults as [|i d defaults Hi Hfold IH] using map_first_key_ind.
  - rewrite map_fold_empty, lookup_empty. by destruct (strict_eq _ _).
  - rewrite map_fold_insert_first_key by done.
    destruct (decide (i = k)) as [->|Hne].
    + rewrite lookup_insert_eq.
      destruct (strict_eq (get config k) VUndefined); [|done].
      by rewrite lookup_insert_eq.
    + rewrite (lookup_insert_ne defaults) by done.
      destruct (strict_eq (get config i) VUndefined); [|done].
      by rewrite lookup_insert_ne.
Qed.

Lemma resolveDefaultProps_defined (defaults config : Obj) k :
  get config k ≠ VUndefined →
  resolveDefaultProps defaults config !! k = config !! k.
Proof.
  intros Hk. rewrite resolveDefaultProps_lookup.
  apply strict_eq_false in Hk; [|done]. by rewrite Hk.
Qed.

Lemma get_resolveDefaultProps (defaults config : Obj) k :
  get (resolveDefaultProps defaults config) k
  = if strict_eq (get config k) VUndefined
    then match defaults !! k with
         | Some d => d
         | None => VUndefined
         end
    else get config k.
Proof.
  unfold get at 1. rewrite resolveDefaultProps_lookup.
  destruct (strict_eq (get config k) VUndefined) eqn:E; [|done].
  destruct (defaults !! k); [done|].
  apply strict_eq_true in E; [|done]. done.
Qed.

(** ** Running the store monad *)

Lemma bind_normal {A B} (m : M A) (k : A → M B) h a h' :
  m h = (Normal a, h') → (m ≫= k) h = k a h'.
Proof. intros E. unfold mbind, M_bind, bind. by rewrite E. Qed.

Lemma bind_throw {A B} (m : M A) (k : A → M B) h e h' :
  m h = (Throw e, h') → (m ≫= k) h = (Throw e, h').
Proof. intros E. unfold mbind, M_bind, bind. by rewrite E. Qed.

Lemma readObj_some l h o : h !! l = Some o → readObj l h = (Normal o, h).
Proof. intros E. unfold readObj. by rewrite E. Qed.

Lemma getProp_object l k h o :
  h !! l = Some o → getProp (VObject l) k h = (Normal (get o k), h).
Proof.
  intros E. unfold getProp, bind, readObj, ret. by rewrite E.
Qed.

Lemma setProp_some l k x h o :
  h !! l = Some o → setProp l k x h = (Normal tt, <[l := <[k := x]> o]> h).
Proof. intros E. unfold setProp. by rewrite E. Qed.

Lemma alloc_fresh (h : Heap) : h !! fresh (dom h) = None.
Proof. apply not_elem_of_dom, is_fresh. Qed.

Lemma alloc_run o (h : Heap) :
  alloc o h = (Normal (fresh (dom h)), <[fresh (dom h) := o]> h).
Proof. reflexivity. Qed.

(** A read that succeeds is not disturbed by an allocation. *)
Lemma getProp_frame v k (h : Heap) l o x :
  (getProp v k h).1 = Normal x → h !! l = None →
  getProp v k (<[l := o]> h) = (Normal x, <[l := o]> h).
Proof.
  intros Hx Hl. destruct v as [| | | | |l'|]; try discriminate Hx.
  unfold getProp, bind, readObj, ret in *.
  destruct (h !! l') as [o'|] eqn:E; [|discriminate Hx].
  assert (l ≠ l') by congruence.
  rewrite lookup_insert_ne, E by done. simpl in Hx. congruence.
Qed.

Lemma rest_get (p : Obj) k :
  k ≠ "className" → k ≠ "range" → k ≠ "tooltipPrefixCls" → k ≠ "prefixCls" →
  get (delete "className" (delete "range"
         (delete "tooltipPrefixCls" (delete "prefixCls" p)))) k = get p k.
Proof. intros. by rewrite !get_delete_ne. Qed.

Lemma getProp_heap v k (h : Heap) : (getProp v k h).2 = h.
Proof.
  destruct v as [| | | | |l|]; try reflexivity.
  unfold getProp, bind, readObj, ret. by destruct (h !! l).
Qed.

(** One render pass, step by step: the pass allocates the [restProps]
    copy, writes to that copy alone, and throws only where it reads
    [range.draggableTrack]. *)
Lemma Slider_run rc context visibles props ref h p :
  h !! props = Some p →
  let prefixCls := getPrefixCls context (VString "slider") (get p "prefixCls") in
  let tooltipPrefixCls :=
    getPrefixCls context (VString "tooltip") (get p "tooltipPrefixCls") in
  let rtl := strict_eq (direction context) (VString "rtl") in
  let cls := classNames (get p "className") (prefixCls +:+ "-rtl") rtl in
  let rest0 := delete "className" (delete "range"
                 (delete "tooltipPrefixCls" (delete "prefixCls" p))) in
  let rest := if rtl && negb (truthy (get p "vertical"))
              then <["reverse" := js_not (get p "reverse")]> rest0
              else rest0 in
  let h' := <[fresh (dom h) := rest]> h in
  Slider rc context visibles props ref h =
    (match ((if String.eqb (typeof (get p "range")) "object"
             then getProp (get p "range") "draggableTrack"
             else mret VUndefined) h').1 with
     | Normal dt =>
         Normal
           (jsx (if truthy (get p "range")
                 then RcRange_defaultProps rc else RcSlider_defaultProps rc)
                (if truthy (get p "range") then RcRange else RcSlider)
              ([ Spread rest; Attr "step" (get p "step") ]
               ++ (if truthy (get p "range")
                   then [ Attr "draggableTrack" dt ] else [])
               ++ [ Attr "className" (VString cls);
                    Attr "ref" ref;
                    Attr "handle"
                      (VFunction
                         (HandleFn visibles props tooltipPrefixCls
                            prefixCls));
                    Attr "prefixCls" (VString prefixCls) ])
              [])
     | Throw e => Throw e
     end, h').
Proof.
  intros Hp. intros.
  unfold Slider.
  rewrite (bind_normal _ _ _ _ _ (readObj_some _ _ _ Hp)).
  fold rest0.
  rewrite (bind_normal _ _ _ _ _ (alloc_run _ _)).
  set (l := fresh (dom h)) in *.
  fold prefixCls tooltipPrefixCls rtl cls.
  assert (Hflip :
    (if rtl
     then restProps_vertical ← getProp (VObject l) "vertical";
          if negb (truthy restProps_vertical)
          then restProps_reverse ← getProp (VObject l) "reverse";
               setProp l "reverse" (js_not restProps_reverse)
          else mret ()
     else mret ()) (<[l := rest0]> h) = (Normal (), h')).
  { unfold h', rest. destruct rtl; [|reflexivity].
    rewrite (bind_normal _ _ _ _ _
               (getProp_object l "vertical" _ rest0 (lookup_insert_eq _ _ _))).
    unfold rest0 at 1. rewrite rest_get by done.
    destruct (truthy (get p "vertical")); [reflexivity|]. simpl.
    rewrite (bind_normal _ _ _ _ _
               (getProp_object l "reverse" _ rest0 (lookup_insert_eq _ _ _))).
    rewrite (setProp_some _ _ _ _ rest0) by apply lookup_insert_eq.
    unfold rest0 at 1. rewrite rest_get by done.
    by rewrite insert_insert_eq. }
  rewrite (bind_normal _ _ _ _ _ Hflip).
  assert (Hstep : get rest "step" = get p "step").
  { unfold rest. destruct (rtl && _).
    - rewrite get_insert_ne by done. by apply rest_get.
    - by apply rest_get. }
  assert (Hl : h' !! l = Some rest) by apply lookup_insert_eq.
  match goal with |- (?m ≫= _) _ = _ => set (read := m) end.
  assert (Hh : (read h').2 = h').
  { unfold read. destruct (String.eqb _ _); [apply getProp_heap | done]. }
  destruct (read h') as [[dt|e] h''] eqn:E; simpl in Hh; subst h''.
  - rewrite (bind_normal _ _ _ _ _ E). simpl.
    destruct (truthy (get p "range")); unfold ownProps;
      rewrite (bind_normal _ _ _ _ _ (readObj_some l _ rest Hl)),
              (bind_normal _ _ _ _ _ (getProp_object l "step" _ rest Hl)),
              Hstep; reflexivity.
  - by rewrite (bind_throw _ _ _ _ _ E).
Qed.

Lemma Slider_normal rc context visibles props ref h p dt :
  h !! props = Some p →
  fst ((if String.eqb (typeof (get p "range")) "object"
        then getProp (get p "range") "draggableTrack"
        else mret VUndefined) h) = Normal dt →
  let prefixCls := getPrefixCls context (VString "slider") (get p "prefixCls") in
  let tooltipPrefixCls :=
    getPrefixCls context (VString "tooltip") (get p "tooltipPrefixCls") in
  let rtl := strict_eq (direction context) (VString "rtl") in
  let cls := classNames (get p "className") (prefixCls +:+ "-rtl") rtl in
  let rest0 := delete "className" (delete "range"
                 (delete "tooltipPrefixCls" (delete "prefixCls" p))) in
  let rest := if rtl && negb (truthy (get p "vertical"))
              then <["reverse" := js_not (get p "reverse")]> rest0
              else rest0 in
  Slider rc context visibles props ref h =
    (Normal
       (jsx (if truthy (get p "range")
                 then RcRange_defaultProps rc else RcSlider_defaultProps rc)
                (if truthy (get p "range") then RcRange else RcSlider)
          ([ Spread rest; Attr "step" (get p "step") ]
           ++ (if truthy (get p "range")
               then [ Attr "draggableTrack" dt ] else [])
           ++ [ Attr "className" (VString cls);
                Attr "ref" ref;
                Attr "handle"
                  (VFunction
                     (HandleFn visibles props tooltipPrefixCls prefixCls));
                Attr "prefixCls" (VString prefixCls) ])
          []),
     <[fresh (dom h) := rest]> h).
Proof.
  intros Hp Hdt. intros.
  assert (Hf : h !! fresh (dom h) = None) by apply alloc_fresh.
  rewrite (Slider_run _ _ _ _ _ _ _ Hp).
  fold prefixCls tooltipPrefixCls rtl cls rest0 rest.
  destruct (String.eqb (typeof (get p "range")) "object").
  - by rewrite (getProp_frame _ _ _ _ rest _ Hdt Hf).
  - simpl in *. by inversion Hdt.
Qed.

(** Reading a prop of a rendered element. *)
Ltac read_props :=
  unfold jsx, createElement, SliderTooltip_defaultProps,
    RcHandle_defaultProps;
  cbn [el_props el_type el_key el_ref jsxConfig foldl app];
  rewrite ?resolveDefaultProps_empty;
  repeat first
    [ rewrite get_insert_eq
    | rewrite get_insert_ne by done
    | rewrite get_delete_ne by done ];
  rewrite ?(right_id_L ∅ (∪)).

(** The props of an element without children: a config entry that is
    not [undefined], or else the default of the type, if it has one. *)
Lemma createElement_props (defaults config : Obj) type k :
  k ≠ "key" → k ≠ "ref" → k ≠ "__self" → k ≠ "__source" →
  el_props (createElement defaults type config []) !! k
  = if strict_eq (get config k) VUndefined
    then match defaults !! k with
         | Some d => Some d
         | None => config !! k
         end
    else config !! k.
Proof.
  intros. unfold createElement. cbn [el_props].
  by rewrite resolveDefaultProps_lookup, !get_delete_ne, !lookup_delete_ne.
Qed.

Lemma createElement_get (defaults config : Obj) type k :
  k ≠ "key" → k ≠ "ref" → k ≠ "__self" → k ≠ "__source" →
  get (el_props (createElement defaults type config [])) k
  = if strict_eq (get config k) VUndefined
    then get defaults k else get config k.
Proof.
  intros. unfold createElement. cbn [el_props].
  rewrite get_resolveDefaultProps, !get_delete_ne by done.
  by destruct (strict_eq _ _).
Qed.

Lemma createElement_defined (defaults config : Obj) type k v :
  k ≠ "key" → k ≠ "ref" → k ≠ "__self" → k ≠ "__source" →
  config !! k = Some v → v ≠ VUndefined →
  el_props (createElement defaults type config []) !! k = Some v.
Proof.
  intros ???? Hk Hv. rewrite createElement_props by done.
  unfold get. rewrite Hk. simpl.
  apply strict_eq_false in Hv; [|done]. by rewrite Hv.
Qed.

Lemma range_read (h : Heap) range :
  range ≠ VNull → (∀ l, range = VObject l → is_Some (h !! l)) →
  ∃ dt, ((if String.eqb (typeof range) "object"
          then getProp range "draggableTrack"
          else mret VUndefined) h).1 = Normal dt.
Proof.
  intros Hnull Hobj.
  destruct range as [| | | | |l|]; try (eexists; reflexivity); [done|].
  destruct (Hobj l eq_refl) as [o Ho]. exists (get o "draggableTrack").
  change (String.eqb (typeof (VObject l)) "object") with true. cbv iota.
  by rewrite (getProp_object _ _ _ _ Ho).
Qed.

Lemma rest_reverse (p : Obj) (flip : bool) :
  get (if flip
       then <["reverse" := js_not (get p "reverse")]>
              (delete "className" (delete "range"
                 (delete "tooltipPrefixCls" (delete "prefixCls" p))))
       else delete "className" (delete "range"
              (delete "tooltipPrefixCls" (delete "prefixCls" p)))) "reverse"
  = if flip then js_not (get p "reverse") else get p "reverse".
Proof.
  destruct flip; [apply get_insert_eq | by apply rest_get].
Qed.

(** ** The render pass *)

(** What a render pass that completes hands to [createElement]. *)
Lemma Slider_forwards rc context visibles props ref h p dt :
  h !! props = Some p →
  ((if String.eqb (typeof (get p "range")) "object"
    then getProp (get p "range") "draggableTrack"
    else mret VUndefined) h).1 = Normal dt →
  let prefixCls := getPrefixCls context (VString "slider") (get p "prefixCls") in
  let tooltipPrefixCls :=
    getPrefixCls context (VString "tooltip") (get p "tooltipPrefixCls") in
  let rtl := strict_eq (direction context) (VString "rtl") in
  ∃ config h',
    Slider rc context visibles props ref h
      = (Normal
           (createElement
              (if truthy (get p "range")
               then RcRange_defaultProps rc else RcSlider_defaultProps rc)
              (if truthy (get p "range") then RcRange else RcSlider)
              config []), h') ∧
    config !! "reverse"
      = (if rtl && negb (truthy (get p "vertical"))
         then Some (js_not (get p "reverse")) else p !! "reverse") ∧
    config !! "step" = Some (get p "step") ∧
    config !! "draggableTrack"
      = (if truthy (get p "range") then Some dt
         else p !! "draggableTrack") ∧
    config !! "className"
      = Some (VString (classNames (get p "className")
                         (prefixCls +:+ "-rtl") rtl)) ∧
    config !! "ref" = Some ref ∧
    config !! "handle"
      = Some (VFunction
                (HandleFn visibles props tooltipPrefixCls prefixCls)) ∧
    config !! "prefixCls" = Some (VString prefixCls) ∧
    config !! "range" = None ∧
    config !! "tooltipPrefixCls" = None ∧
    (∀ k, k ∉ [ "prefixCls"; "tooltipPrefixCls"; "range"; "className";
                "reverse"; "step"; "draggableTrack"; "handle"; "ref" ] →
          config !! k = p !! k).
Proof.
  intros Hp Hdt. cbv zeta.
  eexists _, _. split; [exact (Slider_normal _ _ _ _ _ _ _ _ Hp Hdt)|].
  set (flip := strict_eq (direction context) (VString "rtl")
               && negb (truthy (get p "vertical"))).
  set (rest0 := delete "className" (delete "range"
                  (delete "tooltipPrefixCls" (delete "prefixCls" p)))).
  assert (Hrest : ∀ k, k ≠ "className" → k ≠ "range" →
            k ≠ "tooltipPrefixCls" → k ≠ "prefixCls" → k ≠ "reverse" →
            (if flip then <["reverse" := js_not (get p "reverse")]> rest0
             else rest0) !! k = p !! k).
  { intros. unfold rest0. destruct flip; rewrite ?lookup_insert_ne by done;
      by rewrite !lookup_delete_ne. }
  assert (Hgone : ∀ k, k = "range" ∨ k = "tooltipPrefixCls" →
            (if flip then <["reverse" := js_not (get p "reverse")]> rest0
             else rest0) !! k = None).
  { intros k Hk. unfold rest0.
    destruct flip, Hk as [-> | ->];
      rewrite ?lookup_insert_ne by done;
      by rewrite ?(lookup_delete_ne _ "className"), ?lookup_delete_eq,
                 ?(lookup_delete_ne _ "range"), ?lookup_delete_eq by done. }
  assert (Hrev : (if flip then <["reverse" := js_not (get p "reverse")]> rest0
                  else rest0) !! "reverse"
                 = if flip then Some (js_not (get p "reverse"))
                   else p !! "reverse").
  { unfold rest0. destruct flip; [apply lookup_insert_eq|].
    by rewrite !lookup_delete_ne. }
  destruct (truthy (get p "range")); cbn [jsxConfig foldl app];
    rewrite (right_id_L ∅ (∪));
    (split; [by rewrite !lookup_insert_ne by done|]);
    (split; [by rewrite !lookup_insert_ne, lookup_insert_eq by done|]);
    (split; [rewrite ?(lookup_insert_ne _ "prefixCls"),
                     ?(lookup_insert_ne _ "handle"),
                     ?(lookup_insert_ne _ "ref"),
                     ?(lookup_insert_ne _ "className") by done;
             first [ apply lookup_insert_eq
                   | rewrite lookup_insert_ne by done; by apply Hrest ]|]);
    (split; [by rewrite !lookup_insert_ne, lookup_insert_eq by done|]);
    (split; [by rewrite !lookup_insert_ne, lookup_insert_eq by done|]);
    (split; [by rewrite lookup_insert_ne, lookup_insert_eq by done|]);
    (split; [by rewrite lookup_insert_eq|]);
    (split; [rewrite !lookup_insert_ne by done; apply Hgone; by left|]);
    (split; [rewrite !lookup_insert_ne by done; apply Hgone; by right|]);
    intros k Hk; repeat (apply not_elem_of_cons in Hk as [? Hk]);
    rewrite !lookup_insert_ne by done; by apply Hrest.
Qed.

(** C2: the [reverse] that the component forwards to the slider
    primitive is the caller's [reverse] exclusive-or "direction is rtl
    and vertical is not set": under rtl and a falsy [vertical] it is the
    negation of the caller's [reverse] ([true] for a caller without
    one), and with a truthy [vertical] it is the caller's own, whatever
    the direction.  The element of the primitive holds the forwarded
    value, or the primitive's own default where the caller's [reverse]
    is forwarded as [undefined]; with a primitive whose default is
    falsy, the flag of the element is the same exclusive-or. *)
Theorem Slider_reverse rc context visibles props ref h p :
  h !! props = Some p →
  get p "range" ≠ VNull →
  (∀ l, get p "range" = VObject l → is_Some (h !! l)) →
  let defaults := if truthy (get p "range")
                  then RcRange_defaultProps rc else RcSlider_defaultProps rc in
  let type := if truthy (get p "range") then RcRange else RcSlider in
  let rtl := strict_eq (direction context) (VString "rtl") in
  let vertical := truthy (get p "vertical") in
  ∃ config el h',
    Slider rc context visibles props ref h = (Normal el, h') ∧
    el = createElement defaults type config [] ∧
    truthy (get config "reverse")
      = xorb (truthy (get p "reverse")) (rtl && negb vertical) ∧
    (rtl = true → vertical = false →
       config !! "reverse" = Some (VBool (negb (truthy (get p "reverse"))))) ∧
    (vertical = true → config !! "reverse" = p !! "reverse") ∧
    (rtl = false → config !! "reverse" = p !! "reverse") ∧
    get (el_props el) "reverse"
      = (if strict_eq (get config "reverse") VUndefined
         then get defaults "reverse" else get config "reverse") ∧
    (rtl = true → vertical = false →
       get (el_props el) "reverse" = VBool (negb (truthy (get p "reverse")))) ∧
    (truthy (get defaults "reverse") = false →
       truthy (get (el_props el) "reverse")
         = xorb (truthy (get p "reverse")) (rtl && negb vertical)).
Proof.
  intros Hp Hnull Hobj. cbv zeta.
  destruct (range_read h _ Hnull Hobj) as [dt Hdt].
  destruct (Slider_forwards rc context visibles props ref h p dt Hp Hdt)
    as (config & h' & Hrun & Hrev & _).
  eexists config, _, h'. split; [exact Hrun|]. split; [reflexivity|].
  rewrite createElement_get by done.
  assert (Hget : get config "reverse"
                 = if strict_eq (direction context) (VString "rtl")
                      && negb (truthy (get p "vertical"))
                   then js_not (get p "reverse") else get p "reverse").
  { unfold get at 1. rewrite Hrev. by destruct (_ && _). }
  assert (Hnot : ∀ v, strict_eq (js_not v) VUndefined = false)
    by (intros v; by apply strict_eq_false).
  assert (Hkeep : ∀ d,
            truthy d = false →
            truthy (if strict_eq (get p "reverse") VUndefined
                    then d else get p "reverse")
              = truthy (get p "reverse")).
  { intros d Hd. destruct (strict_eq (get p "reverse") VUndefined) eqn:E;
      [|done]. apply strict_eq_true in E; [|done]. by rewrite E, Hd. }
  rewrite Hget, Hrev.
  destruct (strict_eq (direction context) (VString "rtl")),
           (truthy (get p "vertical")); simpl;
    rewrite ?Hnot, ?Bool.xorb_false_r;
    (split; [try done; by destruct (truthy (get p "reverse"))|]);
    (split; [done|]); (split; [done|]); (split; [done|]);
    (split; [done|]); (split; [done|]);
    first [ exact (Hkeep _)
          | intros _; unfold js_not; simpl;
            by destruct (truthy (get p "reverse")) ].
Qed.

Lemma Slider_reverse_witness :
  ∃ el h',
    Slider samplePrimitives (sampleContext (VString "rtl")) ∅ 1%positive
      VNull singleHeap = (Normal el, h') ∧
    get (el_props el) "reverse" = VBool true.
Proof.
  destruct (Slider_reverse samplePrimitives (sampleContext (VString "rtl")) ∅
              1%positive VNull singleHeap singleProps)
    as (config & el & h' & Hrun & _ & _ & _ & _ & _ & _ & Hneg & _).
  - reflexivity.
  - vm_compute. discriminate.
  - intros l Hl. vm_compute in Hl. discriminate.
  - exists el, h'. split; [exact Hrun|]. by apply Hneg.
Defined.

(** C3: with [range] absent or [false] the single-value primitive is
    rendered, and the component forwards the caller's [step] to it as it
    is: a number or [null] is the [step] of the element, and where the
    caller has no [step] the element holds the primitive's own default. *)
Theorem Slider_single rc context visibles props ref h p :
  h !! props = Some p →
  get p "range" = VUndefined ∨ get p "range" = VBool false →
  ∃ config el h',
    Slider rc context visibles props ref h = (Normal el, h') ∧
    el = createElement (RcSlider_defaultProps rc) RcSlider config [] ∧
    el_type el = RcSlider ∧
    config !! "step" = Some (get p "step") ∧
    (get p "step" ≠ VUndefined →
       el_props el !! "step" = Some (get p "step")) ∧
    (get p "step" = VNull → el_props el !! "step" = Some VNull) ∧
    (get p "step" = VUndefined →
       get (el_props el) "step" = get (RcSlider_defaultProps rc) "step").
Proof.
  intros Hp Hrange.
  assert (Hdt : ((if String.eqb (typeof (get p "range")) "object"
                  then getProp (get p "range") "draggableTrack"
                  else mret VUndefined) h).1 = Normal VUndefined)
    by (by destruct Hrange as [-> | ->]).
  destruct (Slider_forwards rc context visibles props ref h p _ Hp Hdt)
    as (config & h' & Hrun & _ & Hstep & _).
  assert (Ht : truthy (get p "range") = false)
    by (by destruct Hrange as [-> | ->]).
  rewrite Ht in Hrun.
  eexists config, _, h'. split; [exact Hrun|]. split; [reflexivity|].
  split; [reflexivity|]. split; [exact Hstep|].
  split; [|split].
  - intros Hs. by apply createElement_defined.
  - intros Hs. rewrite Hs in Hstep. by apply createElement_defined.
  - intros Hs. rewrite createElement_get by done.
    unfold get at 1. by rewrite Hstep, Hs.
Qed.

Lemma Slider_single_witness :
  ∃ el h',
    Slider samplePrimitives (sampleContext (VString "ltr")) ∅ 1%positive
      VNull singleHeap = (Normal el, h') ∧
    el_type el = RcSlider ∧ el_props el !! "step" = Some VNull.
Proof.
  destruct (Slider_single samplePrimitives (sampleContext (VString "ltr")) ∅
              1%positive VNull singleHeap singleProps)
    as (config & el & h' & Hrun & _ & Hty & _ & _ & Hnull & _).
  - reflexivity.
  - left. reflexivity.
  - exists el, h'. split; [exact Hrun|]. split; [exact Hty|].
    apply Hnull. reflexivity.
Defined.

(** C4: with [range] equal to [true] or an object the range primitive is
    rendered.  The component forwards the [draggableTrack] of a [range]
    object as the [draggableTrack] prop, and [undefined] when [range] is
    [true]; the element holds the forwarded value, [true] in particular,
    or the primitive's own default where [undefined] is forwarded. *)
Theorem Slider_range rc context visibles props ref h p :
  h !! props = Some p →
  (get p "range" = VBool true →
     ∃ config el h',
       Slider rc context visibles props ref h = (Normal el, h') ∧
       el = createElement (RcRange_defaultProps rc) RcRange config [] ∧
       el_type el = RcRange ∧
       config !! "draggableTrack" = Some VUndefined ∧
       get (el_props el) "draggableTrack"
         = get (RcRange_defaultProps rc) "draggableTrack") ∧
  (∀ l r, get p "range" = VObject l → h !! l = Some r →
     ∃ config el h',
       Slider rc context visibles props ref h = (Normal el, h') ∧
       el = createElement (RcRange_defaultProps rc) RcRange config [] ∧
       el_type el = RcRange ∧
       config !! "draggableTrack" = Some (get r "draggableTrack") ∧
       (get r "draggableTrack" ≠ VUndefined →
          el_props el !! "draggableTrack"
            = Some (get r "draggableTrack")) ∧
       (get r "draggableTrack" = VBool true →
          el_props el !! "draggableTrack" = Some (VBool true)) ∧
       (get r "draggableTrack" = VUndefined →
          get (el_props el) "draggableTrack"
            = get (RcRange_defaultProps rc) "draggableTrack")).
Proof.
  intros Hp. split.
  - intros Hr.
    destruct (Slider_forwards rc context visibles props ref h p VUndefined Hp)
      as (config & h' & Hrun & _ & _ & Hdt & _); [by rewrite Hr|].
    rewrite Hr in Hrun, Hdt. simpl in Hrun, Hdt.
    eexists config, _, h'. split; [exact Hrun|]. split; [reflexivity|].
    split; [reflexivity|]. split; [exact Hdt|].
    rewrite createElement_get by done. unfold get at 1. by rewrite Hdt.
  - intros l r Hr Hl.
    destruct (Slider_forwards rc context visibles props ref h p
                (get r "draggableTrack") Hp)
      as (config & h' & Hrun & _ & _ & Hdt & _).
    { rewrite Hr. change (String.eqb (typeof (VObject l)) "object") with true.
      cbv iota. by rewrite (getProp_object _ _ _ _ Hl). }
    rewrite Hr in Hrun, Hdt. simpl in Hrun, Hdt.
    eexists config, _, h'. split; [exact Hrun|]. split; [reflexivity|].
    split; [reflexivity|]. split; [exact Hdt|].
    split; [|split].
    + intros Hs. by apply createElement_defined.
    + intros Hs. rewrite Hs in Hdt. by apply createElement_defined.
    + intros Hs. rewrite createElement_get by done.
      unfold get at 1. by rewrite Hdt, Hs.
Qed.

Lemma Slider_range_witness :
  ∃ el h',
    Slider samplePrimitives (sampleContext (VString "ltr")) ∅ 1%positive
      VNull rangeHeap = (Normal el, h') ∧
    el_type el = RcRange ∧
    el_props el !! "draggableTrack" = Some (VBool true).
Proof.
  destruct (Slider_range samplePrimitives (sampleContext (VString "ltr")) ∅
              1%positive VNull rangeHeap rangeProps eq_refl) as [_ Hobj].
  destruct (Hobj 2%positive {[ "draggableTrack" := VBool true ]}
              eq_refl eq_refl)
    as (config & el & h' & Hrun & _ & Hty & _ & _ & Htrue & _).
  exists el, h'. split; [exact Hrun|]. split; [exact Hty|].
  apply Htrue. reflexivity.
Defined.

(** [range={null}] is outside the prop types: [typeof null] is
    ["object"], and reading [draggableTrack] from it throws. *)
Example Slider_range_null :
  (Slider samplePrimitives (sampleContext (VString "ltr")) ∅ 1%positive VNull
     {[ 1%positive := {[ "range" := VNull ]} ]}).1 = Throw TypeError.
Proof. reflexivity. Qed.

(** A slider without [step], [reverse] and [max], and a range slider
    with [range] equal to [true]: the elements hold the defaults of the
    primitives. *)
Example Slider_defaults_fill :
  (∃ el h', Slider samplePrimitives (sampleContext (VString "ltr")) ∅
              1%positive VNull {[ 1%positive := ∅ ]} = (Normal el, h') ∧
            el_props el !! "step" = Some (VNumber (Number_ofZ 1)) ∧
            el_props el !! "reverse" = Some (VBool false) ∧
            el_props el !! "max" = Some (VNumber (Number_ofZ 100))) ∧
  (∃ el h', Slider samplePrimitives (sampleContext (VString "ltr")) ∅
              1%positive VNull
              {[ 1%positive := {[ "range" := VBool true ]} ]}
              = (Normal el, h') ∧
            el_props el !! "draggableTrack" = Some (VBool false)).
Proof. split; eexists _, _; vm_compute; repeat split. Qed.

(** The empty string is no member of the placement type; it is falsy and
    falls through to the defaults. *)
Example getTooltipPlacement_empty :
  getTooltipPlacement (sampleContext (VString "ltr")) (VString "")
    VUndefined = VString "top".
Proof. reflexivity. Qed.
(** ** The handle renderer *)

(** What a call of the handle renderer that completes returns. *)
Lemma handleWithTooltip_normal extern context visibles props
    tooltipPrefixCls prefixCls info h p bag title :
  h !! props = Some p →
  (get p "tooltipProps" = VUndefined ∧ bag = ∅)
  ∨ (∃ l, get p "tooltipProps" = VObject l ∧ h !! l = Some bag) →
  (if truthy (get p "tipFormatter")
   then applyFunction extern (get p "tipFormatter") (value info)
   else Normal (VString "")) = Normal title →
  handleWithTooltip extern context visibles props tooltipPrefixCls prefixCls
    info h =
  (Normal
     (jsx SliderTooltip_defaultProps SliderTooltip
        [ Attr "prefixCls" (VString tooltipPrefixCls);
          Attr "title" title;
          Attr "visible"
            (visible (get p "tooltipVisible")
               (isTipFormatter visibles (get p "tipFormatter")
                  (dragging info) (index info)));
          Attr "placement"
            (getTooltipPlacement context (get p "tooltipPlacement")
               (get p "vertical"));
          Attr "key" (VNumber (Number_ofZ (index info)));
          Attr "overlayClassName" (VString (prefixCls +:+ "-tooltip"));
          Attr "getPopupContainer"
            (js_or (get p "getTooltipPopupContainer")
               (getPopupContainer context));
          Spread bag;
          Attr "transitionName"
            (getTransitionName (getPrefixCls context VUndefined VUndefined)
               "zoom-down" (get bag "transitionName")) ]
        [ jsx RcHandle_defaultProps RcHandle
            [ Spread (restProps info);
              Attr "value" (value info);
              Attr "onMouseEnter" (VFunction (ToggleFn (index info) true));
              Attr "onMouseLeave" (VFunction (ToggleFn (index info) false)) ]
            [] ]),
   if strict_eq (get p "tooltipProps") VUndefined
   then <[fresh (dom h) := ∅]> h else h).
Proof.
  intros Hp Hbag Htitle.
  unfold handleWithTooltip.
  rewrite (bind_normal _ _ _ _ _ (readObj_some _ _ _ Hp)).
  assert (Hcall :
    ∀ h1 : Heap,
      (if truthy (get p "tipFormatter")
       then call extern (get p "tipFormatter") (value info)
       else mret (VString "")) h1 = (Normal title, h1)).
  { intros h1. unfold call. destruct (truthy (get p "tipFormatter"));
      [by rewrite Htitle | by inversion Htitle]. }
  destruct Hbag as [[Hu ->] | (l & Hl & Hb)].
  - rewrite Hu. change (strict_eq VUndefined VUndefined) with true. cbv iota.
    rewrite (bind_normal _ _ h (VObject (fresh (dom h)))
               (<[fresh (dom h) := ∅]> h)) by reflexivity.
    rewrite (bind_normal _ _ _ _ _
               (getProp_object _ "transitionName" _ ∅ (lookup_insert_eq _ _ _))).
    rewrite (bind_normal _ _ _ _ _ (Hcall _)).
    unfold ownProps.
    by rewrite (bind_normal _ _ _ _ _
                  (readObj_some _ _ ∅ (lookup_insert_eq _ _ _))).
  - rewrite Hl. change (strict_eq (VObject l) VUndefined) with false. cbv iota.
    rewrite (bind_normal _ _ h (VObject l) h) by reflexivity.
    rewrite (bind_normal _ _ _ _ _ (getProp_object _ "transitionName" _ _ Hb)).
    rewrite (bind_normal _ _ _ _ _ (Hcall _)).
    unfold ownProps.
    by rewrite (bind_normal _ _ _ _ _ (readObj_some _ _ _ Hb)).
Qed.

Lemma isTipFormatter_truthy visibles tf dragging index :
  truthy (isTipFormatter visibles tf dragging index) = true ↔
  truthy tf = true ∧
  (visibles !! ToPropertyKey index = Some true ∨ truthy dragging = true).
Proof.
  unfold isTipFormatter, js_or, visiblesAt.
  destruct (truthy tf); [|naive_solver].
  destruct (visibles !! ToPropertyKey index) as [[]|]; simpl; naive_solver.
Qed.

Lemma visible_truthy tooltipVisible isTF :
  truthy (visible tooltipVisible isTF) = true ↔
  truthy tooltipVisible = true
  ∨ (tooltipVisible = VUndefined ∧ truthy isTF = true).
Proof.
  unfold visible, js_or, js_and.
  destruct (truthy tooltipVisible) eqn:Ht; [naive_solver|].
  simpl. destruct (strict_eq tooltipVisible VUndefined) eqn:Hs.
  - apply strict_eq_true in Hs; [|done]. naive_solver.
  - apply strict_eq_false in Hs; [|done]. simpl. naive_solver.
Qed.

Lemma visible_boolean tooltipVisible isTF b :
  tooltipVisible = VBool b → visible tooltipVisible isTF = VBool b.
Proof. intros ->. by destruct b. Qed.

Lemma visible_undefined isTF : visible VUndefined isTF = isTF.
Proof. reflexivity. Qed.

Lemma get_union_r (m1 m2 : Obj) k :
  m1 !! k = None → get (m1 ∪ m2) k = get m2 k.
Proof. intros E. unfold get. by rewrite lookup_union_r. Qed.

(** C1: the [visible] flag of the tooltip of a handle.  It is truthy
    exactly when [tooltipVisible] is truthy, or [tooltipVisible] is
    [undefined], a [tipFormatter] is set, and the handle is hovered (its
    entry of the visibility map is [true]) or dragged.  [tooltipVisible]
    equal to [false] hides the tooltip and [true] shows it, whatever the
    formatter, the pointer and the drag; for props of their declared
    types the flag is the boolean [true] under the same condition, where
    a set formatter is one that is not [null]. *)
Theorem tooltip_visible extern context visibles props tooltipPrefixCls
    prefixCls info h p bag title :
  h !! props = Some p →
  (get p "tooltipProps" = VUndefined ∧ bag = ∅)
  ∨ (∃ l, get p "tooltipProps" = VObject l ∧ h !! l = Some bag) →
  (if truthy (get p "tipFormatter")
   then applyFunction extern (get p "tipFormatter") (value info)
   else Normal (VString "")) = Normal title →
  bag !! "visible" = None →
  ∃ el h',
    handleWithTooltip extern context visibles props tooltipPrefixCls
      prefixCls info h = (Normal el, h') ∧
    el_type el = SliderTooltip ∧
    let flag := get (el_props el) "visible" in
    let tooltipVisible := get p "tooltipVisible" in
    let formatter := get p "tipFormatter" in
    let hovered := visibles !! ToPropertyKey (index info) in
    (truthy flag = true ↔
       truthy tooltipVisible = true
       ∨ (tooltipVisible = VUndefined ∧ truthy formatter = true
          ∧ (hovered = Some true ∨ truthy (dragging info) = true))) ∧
    (tooltipVisible = VBool false → flag = VBool false) ∧
    (tooltipVisible = VBool true → flag = VBool true) ∧
    ((tooltipVisible = VUndefined ∨ ∃ b, tooltipVisible = VBool b) →
     (dragging info = VUndefined ∨ ∃ b, dragging info = VBool b) →
     (formatter = VNull ∨ ∃ c, formatter = VFunction c) →
     (flag = VBool true ↔
        tooltipVisible = VBool true
        ∨ (tooltipVisible = VUndefined ∧ formatter ≠ VNull
           ∧ (hovered = Some true ∨ dragging info = VBool true)))).
Proof.
  intros Hp Hbag Htitle Hvis.
  eexists _, _. split; [exact (handleWithTooltip_normal _ _ _ _ _ _ _ _ _ _ _
                                 Hp Hbag Htitle)|].
  split; [reflexivity|]. cbv zeta.
  assert (Hflag : ∀ a1 a2 a3 a4 a5 a6 a7 a8 c,
    get (el_props (jsx SliderTooltip_defaultProps SliderTooltip
      [ Attr "prefixCls" a1; Attr "title" a2; Attr "visible" a3;
        Attr "placement" a4; Attr "key" a5; Attr "overlayClassName" a6;
        Attr "getPopupContainer" a7; Spread bag; Attr "transitionName" a8 ]
      [c])) "visible" = a3).
  { intros. read_props. rewrite get_union_r by done. by read_props. }
  rewrite Hflag. clear Hflag.
  split; [|split; [|split]].
  - rewrite visible_truthy, isTipFormatter_truthy. naive_solver.
  - apply visible_boolean.
  - apply visible_boolean.
  - intros [Hu | [b Hb]] Hd Hf.
    + rewrite Hu, visible_undefined.
      unfold isTipFormatter, js_or, visiblesAt.
      destruct Hf as [-> | [c ->]]; simpl; [naive_solver|].
      destruct (visibles !! ToPropertyKey (index info)) as [[]|];
        destruct Hd as [-> | [[] ->]]; simpl; naive_solver.
    + rewrite (visible_boolean _ _ _ Hb), Hb. naive_solver.
Qed.

Lemma tooltip_visible_witness :
  ∃ el h',
    handleWithTooltip noExtern (sampleContext (VString "ltr")) sampleVisibles
      1%positive "ant-tooltip" "ant-slider" sampleInfo rangeHeap
      = (Normal el, h') ∧
    get (el_props el) "visible" = VBool false.
Proof.
  destruct (tooltip_visible noExtern (sampleContext (VString "ltr"))
              sampleVisibles 1%positive "ant-tooltip" "ant-slider" sampleInfo
              rangeHeap rangeProps ∅ (VString "5"))
    as (el & h' & Hrun & _ & _ & Hfalse & _).
  - reflexivity.
  - left. split; reflexivity.
  - reflexivity.
  - reflexivity.
  - exists el, h'. split; [exact Hrun|]. apply Hfalse. reflexivity.
Defined.

(** C5: the placement of the tooltip.  A placement that the caller gives
    is returned; without one the placement is ["top"] unless [vertical]
    is set, and for a vertical slider it is ["left"] when the direction
    is ["rtl"] and ["right"] otherwise. *)
Theorem getTooltipPlacement_cases context tooltipPlacement vertical :
  (truthy tooltipPlacement = true →
     getTooltipPlacement context tooltipPlacement vertical
       = tooltipPlacement) ∧
  (∀ s, s ≠ "" →
     getTooltipPlacement context (VString s) vertical = VString s) ∧
  (tooltipPlacement = VUndefined →
     getTooltipPlacement context tooltipPlacement vertical
       = if truthy vertical
         then if strict_eq (direction context) (VString "rtl")
              then VString "left" else VString "right"
         else VString "top") ∧
  (tooltipPlacement = VUndefined → truthy vertical = false →
     getTooltipPlacement context tooltipPlacement vertical = VString "top") ∧
  (tooltipPlacement = VUndefined → truthy vertical = true →
     direction context = VString "rtl" →
     getTooltipPlacement context tooltipPlacement vertical = VString "left") ∧
  (tooltipPlacement = VUndefined → truthy vertical = true →
     direction context ≠ VString "rtl" →
     getTooltipPlacement context tooltipPlacement vertical = VString "right").
Proof.
  unfold getTooltipPlacement. repeat split.
  - by intros ->.
  - intros s Hs. simpl. destruct (String.eqb_spec s ""); done.
  - intros ->. simpl. by destruct (truthy vertical).
  - by intros -> ->.
  - intros -> -> Hd. simpl. apply strict_eq_true in Hd; [|done].
    by rewrite Hd.
  - intros -> -> Hd. simpl. apply strict_eq_false in Hd; [|done].
    by rewrite Hd.
Qed.

Lemma getTooltipPlacement_cases_witness :
  getTooltipPlacement (sampleContext (VString "rtl")) (VString "bottom")
    (VBool true) = VString "bottom" ∧
  getTooltipPlacement (sampleContext (VString "rtl")) VUndefined
    (VBool true) = VString "left" ∧
  getTooltipPlacement (sampleContext (VString "ltr")) VUndefined
    (VBool true) = VString "right" ∧
  getTooltipPlacement (sampleContext (VString "rtl")) VUndefined
    VUndefined = VString "top".
Proof.
  split; [|split; [|split]].
  - destruct (getTooltipPlacement_cases (sampleContext (VString "rtl"))
                (VString "bottom") (VBool true)) as (Hgiven & _).
    apply Hgiven. reflexivity.
  - destruct (getTooltipPlacement_cases (sampleContext (VString "rtl"))
                VUndefined (VBool true)) as (_ & _ & _ & _ & Hleft & _).
    apply Hleft; reflexivity.
  - destruct (getTooltipPlacement_cases (sampleContext (VString "ltr"))
                VUndefined (VBool true)) as (_ & _ & _ & _ & _ & Hright).
    apply Hright; [reflexivity | reflexivity | discriminate].
  - destruct (getTooltipPlacement_cases (sampleContext (VString "rtl"))
                VUndefined VUndefined) as (_ & _ & _ & Htop & _).
    apply Htop; reflexivity.
Defined.

(** C8: the [tooltipProps] bag is spread over the computed tooltip props.
    An entry of the bag named [prefixCls], [title], [visible],
    [placement], [overlayClassName] or [getPopupContainer] replaces the
    computed prop, and so does an entry of any other name that is a prop
    at all: not [transitionName], not one of React's reserved names, not
    [children], which the rendered handle takes.  A name that the bag
    lacks keeps the computed prop.  The [transitionName] that the tooltip
    receives is the root prefix joined with ["zoom-down"], unless the bag
    holds a [transitionName] other than [undefined], which is then
    passed on. *)
Theorem tooltipProps_override extern context visibles props tooltipPrefixCls
    prefixCls info h p bag title :
  h !! props = Some p →
  (get p "tooltipProps" = VUndefined ∧ bag = ∅)
  ∨ (∃ l, get p "tooltipProps" = VObject l ∧ h !! l = Some bag) →
  (if truthy (get p "tipFormatter")
   then applyFunction extern (get p "tipFormatter") (value info)
   else Normal (VString "")) = Normal title →
  ∃ el h',
    handleWithTooltip extern context visibles props tooltipPrefixCls
      prefixCls info h = (Normal el, h') ∧
    el_type el = SliderTooltip ∧
    let computed : Obj :=
      {[ "prefixCls" := VString tooltipPrefixCls;
         "title" := title;
         "visible" := visible (get p "tooltipVisible")
                        (isTipFormatter visibles (get p "tipFormatter")
                           (dragging info) (index info));
         "placement" := getTooltipPlacement context
                          (get p "tooltipPlacement") (get p "vertical");
         "overlayClassName" := VString (prefixCls +:+ "-tooltip");
         "getPopupContainer" := js_or (get p "getTooltipPopupContainer")
                                  (getPopupContainer context) ]} in
    (∀ k v, k ∈ [ "prefixCls"; "title"; "visible"; "placement";
                  "overlayClassName"; "getPopupContainer" ] →
            bag !! k = Some v → el_props el !! k = Some v) ∧
    (∀ k v, k ∉ [ "transitionName"; "key"; "ref"; "__self"; "__source";
                  "children" ] →
            bag !! k = Some v → el_props el !! k = Some v) ∧
    (∀ k, k ∉ [ "transitionName"; "key"; "ref"; "__self"; "__source";
                "children" ] →
          bag !! k = None → el_props el !! k = computed !! k) ∧
    el_props el !! "children" = None ∧
    (∃ handle, el_children el = [handle] ∧ el_type handle = RcHandle) ∧
    get (el_props el) "transitionName"
      = getTransitionName (getPrefixCls context VUndefined VUndefined)
          "zoom-down" (get bag "transitionName") ∧
    (get bag "transitionName" = VUndefined →
       get (el_props el) "transitionName"
         = VString (getPrefixCls context VUndefined VUndefined
                    +:+ "-zoom-down")) ∧
    (get bag "transitionName" ≠ VUndefined →
       get (el_props el) "transitionName" = get bag "transitionName").
Proof.
  intros Hp Hbag Htitle.
  eexists _, _. split; [exact (handleWithTooltip_normal _ _ _ _ _ _ _ _ _ _ _
                                 Hp Hbag Htitle)|].
  split; [reflexivity|]. cbv zeta.
  unfold jsx, createElement, SliderTooltip_defaultProps.
  cbn [el_props el_children jsxConfig foldl].
  rewrite resolveDefaultProps_empty.
  assert (Hwins : ∀ k v, k ∉ [ "transitionName"; "key"; "ref"; "__self";
                               "__source"; "children" ] →
            ∀ (tn : Value) (m : Obj), bag !! k = Some v →
            delete "children" (delete "key" (delete "ref" (delete "__self"
              (delete "__source" (<["transitionName" := tn]> (bag ∪ m))))))
              !! k = Some v).
  { intros k v Hk tn m Hb.
    repeat (apply not_elem_of_cons in Hk as [? Hk]).
    rewrite !lookup_delete_ne, lookup_insert_ne by done.
    by apply lookup_union_Some_l. }
  split; [|split; [|split; [|split; [|split; [|split; [|split]]]]]].
  - intros k v Hin Hk. apply Hwins; [|done].
    repeat (apply elem_of_cons in Hin as [->|Hin];
            [repeat (apply not_elem_of_cons; split; [done|]);
             apply not_elem_of_nil|]).
    by apply elem_of_nil in Hin.
  - intros k v Hne Hk. by apply Hwins.
  - intros k Hne Hk. repeat (apply not_elem_of_cons in Hne as [? Hne]).
    rewrite !lookup_delete_ne, lookup_insert_ne, lookup_union_r by done.
    destruct (decide (k = "getPopupContainer")) as [->|];
      [by rewrite lookup_insert_eq, lookup_insert_ne, lookup_insert_ne,
            lookup_insert_ne, lookup_insert_ne, lookup_insert_ne,
            lookup_singleton_eq by done|].
    rewrite lookup_insert_ne by done.
    destruct (decide (k = "overlayClassName")) as [->|];
      [by rewrite lookup_insert_eq, lookup_insert_ne, lookup_insert_ne,
            lookup_insert_ne, lookup_insert_ne, lookup_insert_eq by done|].
    rewrite lookup_insert_ne, lookup_insert_ne by done.
    destruct (decide (k = "placement")) as [->|];
      [by rewrite lookup_insert_eq, lookup_insert_ne, lookup_insert_ne,
            lookup_insert_ne, lookup_insert_eq by done|].
    rewrite lookup_insert_ne by done.
    destruct (decide (k = "visible")) as [->|];
      [by rewrite lookup_insert_eq, lookup_insert_ne, lookup_insert_ne,
            lookup_insert_eq by done|].
    rewrite lookup_insert_ne by done.
    destruct (decide (k = "title")) as [->|];
      [by rewrite lookup_insert_eq, lookup_insert_ne, lookup_insert_eq
         by done|].
    rewrite lookup_insert_ne by done.
    destruct (decide (k = "prefixCls")) as [->|];
      [by rewrite !lookup_insert_eq|].
    rewrite lookup_insert_ne, lookup_empty by done.
    by rewrite !lookup_insert_ne, lookup_singleton_ne by done.
  - apply lookup_delete_eq.
  - eexists. split; reflexivity.
  - by rewrite !get_delete_ne, get_insert_eq by done.
  - intros Hu. rewrite !get_delete_ne, get_insert_eq by done. by rewrite Hu.
  - intros Hu. rewrite !get_delete_ne, get_insert_eq by done.
    unfold getTransitionName.
    apply strict_eq_false in Hu; [|done]. by rewrite Hu.
Qed.

Lemma tooltipProps_override_witness :
  ∃ el h',
    handleWithTooltip noExtern (sampleContext (VString "ltr")) sampleVisibles
      1%positive "ant-tooltip" "ant-slider" sampleInfo bagHeap
      = (Normal el, h') ∧
    el_props el !! "placement" = Some (VString "bottom") ∧
    get (el_props el) "transitionName" = VString "fade".
Proof.
  destruct (tooltipProps_override noExtern (sampleContext (VString "ltr"))
              sampleVisibles 1%positive "ant-tooltip" "ant-slider" sampleInfo
              bagHeap bagProps sampleBag (VString "5"))
    as (el & h' & Hrun & _ & Hbag & _ & _ & _ & _ & _ & _ & Htn).
  - reflexivity.
  - right. exists 2%positive. split; reflexivity.
  - reflexivity.
  - exists el, h'. split; [exact Hrun|]. split.
    + apply Hbag; [repeat constructor | reflexivity].
    + rewrite Htn; [reflexivity | vm_compute; discriminate].
Defined.

(** ** The default formatter *)

(** The decimal digits of a handle index read back as the index. *)
Lemma digitsOf_reads_back n :
  Z.of_int <$> NilZero.int_of_string (digitsOf n) = Some n.
Proof.
  unfold digitsOf. rewrite NilZero.isi.
  - simpl. by rewrite DecimalZ.of_to.
  - destruct n; simpl; [done| |done].
    intros [= E]. by apply DecimalPos.Unsigned.to_uint_nonnil in E.
  - destruct n; simpl; [done|done|].
    intros [= E]. by apply DecimalPos.Unsigned.to_uint_nonnil in E.
Qed.

#[global] Instance ToPropertyKey_inj : Inj (=) (=) ToPropertyKey.
Proof.
  intros n m E. unfold ToPropertyKey in E.
  pose proof (digitsOf_reads_back n) as Hn.
  rewrite E, digitsOf_reads_back in Hn. by inversion Hn.
Qed.

Lemma resolveDefaultProps_tipFormatter (config : Obj) :
  get config "tipFormatter" = VUndefined →
  get (resolveDefaultProps Slider_defaultProps config) "tipFormatter"
    = VFunction DefaultTipFormatter.
Proof.
  intros E. unfold resolveDefaultProps, Slider_defaultProps.
  rewrite map_fold_singleton, E. apply get_insert_eq.
Qed.

(** The text of an integer of a slider's usual range is its decimal
    digits. *)
Lemma Number_toString_integer (z : Z) :
  (-1000 ≤ z ≤ 1000)%Z → Number_toString (Number_ofZ z) = digitsOf z.
Proof.
  intros Hz.
  assert (Hall : forallb (λ z, String.eqb (Number_toString (Number_ofZ z))
                                 (digitsOf z))
                   ((λ n, Z.of_nat n - 1000) <$> seq 0 2001) = true)
    by (vm_compute; reflexivity).
  rewrite forallb_forall in Hall.
  apply String.eqb_eq, Hall, list_elem_of_In, list_elem_of_fmap.
  exists (Z.to_nat (z + 1000)). split; [lia|].
  apply list_elem_of_In, in_seq. lia.
Qed.

(** C7: the default formatter.  For a number it returns the text that
    [toString] gives in radix 10 (["5"] for 5, and the decimal digits
    for every integer from -1000 to 1000; a fraction with its decimal
    point, exponent notation from [10^21] on, ["NaN"] and ["Infinity"]
    for the numbers that are no quantities), and for any other input,
    [undefined] among them, the empty string.  It is the
    formatter that a slider without a [tipFormatter] prop gets. *)
Theorem tipFormatter_default :
  (∀ x, tipFormatter (VNumber x) = VString (Number_toString x)) ∧
  tipFormatter (VNumber (Number_ofZ 5)) = VString "5" ∧
  (∀ z : Z, (-1000 ≤ z ≤ 1000)%Z →
     tipFormatter (VNumber (Number_ofZ z)) = VString (digitsOf z) ∧
     Z.of_int <$> NilZero.int_of_string (digitsOf z) = Some z) ∧
  tipFormatter (VNumber (Number_ofZ (-12))) = VString "-12" ∧
  tipFormatter (VNumber (Number_ofZ 0)) = VString "0" ∧
  tipFormatter (VNumber (Finite false 5 (-1))) = VString "2.5" ∧
  tipFormatter (VNumber (Number_ofZ (10 ^ 21))) = VString "1e+21" ∧
  tipFormatter (VNumber NaN) = VString "NaN" ∧
  tipFormatter (VNumber (Infinity true)) = VString "-Infinity" ∧
  (∀ v, typeof v ≠ "number" → tipFormatter v = VString "") ∧
  tipFormatter VUndefined = VString "" ∧
  (∀ extern v,
     applyFunction extern (get Slider_defaultProps "tipFormatter") v
       = Normal (tipFormatter v)) ∧
  (∀ config : Obj,
     get config "tipFormatter" = VUndefined →
     get (resolveDefaultProps Slider_defaultProps config) "tipFormatter"
       = VFunction DefaultTipFormatter).
Proof.
  split; [done|]. split; [by vm_compute|].
  split.
  { intros z Hz. split; [|apply digitsOf_reads_back].
    change (tipFormatter (VNumber (Number_ofZ z)))
      with (VString (Number_toString (Number_ofZ z))).
    by rewrite Number_toString_integer. }
  do 6 (split; [by vm_compute|]).
  split; [|split; [done|split; [done|]]].
  - intros v Hv. by destruct v.
  - apply resolveDefaultProps_tipFormatter.
Qed.

Lemma tipFormatter_default_witness :
  tipFormatter (VString "5") = VString "" ∧ tipFormatter VNull = VString "".
Proof.
  destruct tipFormatter_default
    as (_ & _ & _ & _ & _ & _ & _ & _ & _ & Hother & _).
  split; apply Hother; discriminate.
Defined.
(** ** The tooltip state *)

Lemma toggle_lookup_eq i b (prev : Visibles) :
  toggleTooltipVisible i b prev !! ToPropertyKey i = Some b.
Proof. apply lookup_insert_eq. Qed.

Lemma toggle_lookup_key_ne i b (prev : Visibles) k :
  k ≠ ToPropertyKey i → toggleTooltipVisible i b prev !! k = prev !! k.
Proof. intros. unfold toggleTooltipVisible. by rewrite lookup_insert_ne. Qed.

Lemma toggle_lookup_ne i j b (prev : Visibles) :
  j ≠ i →
  toggleTooltipVisible i b prev !! ToPropertyKey j = prev !! ToPropertyKey j.
Proof.
  intros Hne. apply toggle_lookup_key_ne. intros E. by apply (inj _) in E.
Qed.

Lemma toggle_dom i b (prev : Visibles) :
  dom (toggleTooltipVisible i b prev) = {[ ToPropertyKey i ]} ∪ dom prev.
Proof. apply dom_insert_L. Qed.

Lemma invoke_cases c (prev : Visibles) :
  invoke c prev = prev
  ∨ ∃ i b, c = ToggleFn i b ∧ invoke c prev = toggleTooltipVisible i b prev.
Proof. destruct c; eauto. Qed.

Lemma dispatch_cases handler target (prev : Visibles) :
  dispatch handler target prev = prev
  ∨ ∃ i b, get (el_props target) handler = VFunction (ToggleFn i b)
           ∧ dispatch handler target prev = toggleTooltipVisible i b prev.
Proof.
  unfold dispatch. destruct (get (el_props target) handler); eauto.
  destruct (invoke_cases c prev) as [? | (i & b & -> & ?)]; eauto.
Qed.

(** C6: hovering and leaving a rendered handle.  The pointer entering
    the handle of index [i] sets entry [i] of the visibility map to
    [true], the pointer leaving it sets the entry to [false], and no
    other entry changes; no other event changes the map. *)
Theorem hover_toggles extern rc context visibles props tooltipPrefixCls
    prefixCls info h p bag title :
  h !! props = Some p →
  (get p "tooltipProps" = VUndefined ∧ bag = ∅)
  ∨ (∃ l, get p "tooltipProps" = VObject l ∧ h !! l = Some bag) →
  (if truthy (get p "tipFormatter")
   then applyFunction extern (get p "tipFormatter") (value info)
   else Normal (VString "")) = Normal title →
  ∃ tooltip handle h',
    handleWithTooltip extern context visibles props tooltipPrefixCls
      prefixCls info h = (Normal tooltip, h') ∧
    el_children tooltip = [handle] ∧
    el_type handle = RcHandle ∧
    let i := index info in
    (∀ s, st_visibles (step extern rc context s (MouseEnter handle))
            = toggleTooltipVisible i true (st_visibles s)) ∧
    (∀ s, st_visibles (step extern rc context s (MouseLeave handle))
            = toggleTooltipVisible i false (st_visibles s)) ∧
    (∀ prev : Visibles,
       toggleTooltipVisible i true prev !! ToPropertyKey i = Some true ∧
       toggleTooltipVisible i false prev !! ToPropertyKey i = Some false) ∧
    (∀ (prev : Visibles) b j, j ≠ i →
       toggleTooltipVisible i b prev !! ToPropertyKey j
         = prev !! ToPropertyKey j) ∧
    (∀ (prev : Visibles) b k, k ≠ ToPropertyKey i →
       toggleTooltipVisible i b prev !! k = prev !! k) ∧
    (∀ s e,
       st_visibles (step extern rc context s e) ≠ st_visibles s →
       ∃ target j b,
         (e = MouseEnter target ∨ e = MouseLeave target) ∧
         st_visibles (step extern rc context s e)
           = toggleTooltipVisible j b (st_visibles s)).
Proof.
  intros Hp Hbag Htitle.
  eexists _, _, _. split; [exact (handleWithTooltip_normal _ _ _ _ _ _ _ _ _ _ _
                                    Hp Hbag Htitle)|].
  split; [reflexivity|]. split; [reflexivity|]. cbv zeta.
  split; [|split; [|split; [|split; [|split]]]].
  - intros s. cbn [step st_visibles]. unfold dispatch. by read_props.
  - intros s. cbn [step st_visibles]. unfold dispatch. by read_props.
  - intros prev. split; apply toggle_lookup_eq.
  - intros prev b j Hj. by apply toggle_lookup_ne.
  - intros prev b k Hk. by apply toggle_lookup_key_ne.
  - intros s [props' ref'|props' t' p' info'|target|target] Hne;
      cbn [step st_visibles] in *; try done.
    + destruct (dispatch_cases "onMouseEnter" target (st_visibles s))
        as [E | (j & b & _ & E)]; [done|]. exists target, j, b. eauto.
    + destruct (dispatch_cases "onMouseLeave" target (st_visibles s))
        as [E | (j & b & _ & E)]; [done|]. exists target, j, b. eauto.
Qed.

Lemma hover_toggles_witness :
  ∃ tooltip handle h',
    handleWithTooltip noExtern (sampleContext (VString "ltr")) sampleVisibles
      1%positive "ant-tooltip" "ant-slider" sampleInfo singleHeap
      = (Normal tooltip, h') ∧
    el_children tooltip = [handle] ∧
    st_visibles (step noExtern samplePrimitives (sampleContext (VString "ltr"))
                   {| st_visibles := sampleVisibles; st_heap := h' |}
                   (MouseLeave handle))
      !! "0" = Some false.
Proof.
  destruct (hover_toggles noExtern samplePrimitives (sampleContext (VString "ltr"))
              sampleVisibles 1%positive "ant-tooltip" "ant-slider" sampleInfo
              singleHeap singleProps ∅ (VString "5"))
    as (tooltip & handle & h' & Hrun & Hch & _ & _ & Hleave & _).
  - reflexivity.
  - left. split; reflexivity.
  - reflexivity.
  - exists tooltip, handle, h'. split; [exact Hrun|]. split; [exact Hch|].
    rewrite Hleave. reflexivity.
Defined.

Lemma step_dom extern rc context s e :
  dom (st_visibles s) ⊆ dom (st_visibles (step extern rc context s e)).
Proof.
  destruct e as [props ref|props t p info|target|target];
    cbn [step st_visibles]; try done.
  - destruct (dispatch_cases "onMouseEnter" target (st_visibles s))
      as [-> | (i & b & _ & ->)]; [done|]. rewrite toggle_dom. set_solver.
  - destruct (dispatch_cases "onMouseLeave" target (st_visibles s))
      as [-> | (i & b & _ & ->)]; [done|]. rewrite toggle_dom. set_solver.
Qed.

Lemma run_dom extern rc context events : ∀ s,
  dom (st_visibles s) ⊆ dom (st_visibles (run extern rc context s events)).
Proof.
  induction events as [|e events IH]; intros s; [done|].
  cbn [run foldl]. etrans; [apply (step_dom extern rc context s e)|].
  apply IH.
Qed.

Lemma run_app extern rc context s (before after : list Event) :
  run extern rc context s (before ++ after)%list
    = run extern rc context (run extern rc context s before) after.
Proof. apply foldl_app. Qed.

(** C10: the keys of the visibility map never go away.  The pointer
    leaving a handle writes [false] under the handle's key and deletes
    nothing, so after any sequence of events every key that the map had
    is still a key, and so is the key of every handle that was hovered or
    left along the way. *)
Theorem visibles_keys_persist extern rc context s events :
  dom (st_visibles s) ⊆ dom (st_visibles (run extern rc context s events)) ∧
  (∀ i (prev : Visibles),
     toggleTooltipVisible i false prev !! ToPropertyKey i = Some false ∧
     dom prev ⊆ dom (toggleTooltipVisible i false prev)) ∧
  (∀ (before : list Event) e after target i b,
     events = (before ++ e :: after)%list →
     (e = MouseEnter target
      ∧ get (el_props target) "onMouseEnter" = VFunction (ToggleFn i b))
     ∨ (e = MouseLeave target
        ∧ get (el_props target) "onMouseLeave" = VFunction (ToggleFn i b)) →
     ToPropertyKey i ∈ dom (st_visibles (run extern rc context s events))).
Proof.
  split; [apply run_dom|]. split.
  - intros i prev. split; [apply toggle_lookup_eq|].
    rewrite toggle_dom. set_solver.
  - intros before e after target i b -> He.
    rewrite run_app. cbn [run foldl].
    apply (run_dom extern rc context after).
    destruct He as [[-> Hf] | [-> Hf]]; cbn [step st_visibles];
      unfold dispatch; rewrite Hf; cbn [invoke];
      rewrite toggle_dom; set_solver.
Qed.

Lemma visibles_keys_persist_witness :
  "0" ∈ dom (st_visibles
    (run noExtern samplePrimitives (sampleContext (VString "ltr"))
       {| st_visibles := ∅; st_heap := singleHeap |} sampleEvents)).
Proof.
  destruct (visibles_keys_persist noExtern samplePrimitives
              (sampleContext (VString "ltr"))
              {| st_visibles := ∅; st_heap := singleHeap |} sampleEvents)
    as (_ & _ & Hkey).
  apply (Hkey [] (MouseEnter sampleHandle)
           [ Render 1%positive VNull; MouseLeave sampleHandle ]
           sampleHandle 0 true eq_refl).
  left. split; reflexivity.
Defined.

(** ** The store *)

Lemma ret_preserves {A} (a : A) : preserves (mret a : M A).
Proof. by intros h l o. Qed.

Lemma throw_preserves {A} e : preserves (throw e : M A).
Proof. by intros h l o. Qed.

Lemma bind_preserves {A B} (m : M A) (k : A → M B) :
  preserves m → (∀ a, preserves (k a)) → preserves (m ≫= k).
Proof.
  intros Hm Hk h l o Hl. unfold mbind, M_bind, bind.
  specialize (Hm h l o Hl). destruct (m h) as [[a|e] h1]; simpl in Hm.
  - by apply Hk.
  - done.
Qed.

Lemma alloc_preserves o : preserves (alloc o).
Proof.
  intros h l o' Hl. unfold alloc. simpl.
  rewrite lookup_insert_ne; [done|].
  intros E. rewrite <- E, alloc_fresh in Hl. done.
Qed.

Lemma readObj_preserves l : preserves (readObj l).
Proof. intros h l' o Hl. unfold readObj. by destruct (h !! l). Qed.

Lemma getProp_preserves v k : preserves (getProp v k).
Proof. intros h l o Hl. by rewrite getProp_heap. Qed.

Lemma ownProps_preserves v : preserves (ownProps v).
Proof.
  destruct v; try apply ret_preserves; try apply throw_preserves.
  apply readObj_preserves.
Qed.

Lemma call_preserves extern f arg : preserves (call extern f arg).
Proof. by intros h l o. Qed.

Ltac preserves :=
  repeat first
    [ apply ret_preserves
    | apply alloc_preserves
    | apply readObj_preserves
    | apply getProp_preserves
    | apply ownProps_preserves
    | apply call_preserves
    | apply bind_preserves; [|intros ?]
    | match goal with
      | |- preserves (if ?b then _ else _) => destruct b
      end ].

(** The handle renderer writes nothing: at most it allocates the empty
    bag that stands for a missing [tooltipProps]. *)
Lemma handleWithTooltip_preserves extern context visibles props
    tooltipPrefixCls prefixCls info :
  preserves (handleWithTooltip extern context visibles props tooltipPrefixCls
               prefixCls info).
Proof. unfold handleWithTooltip. cbv zeta. preserves. Qed.

Lemma Slider_preserves rc context visibles props ref :
  preserves (Slider rc context visibles props ref).
Proof.
  intros h l o Hl.
  destruct (h !! props) as [p|] eqn:Hp.
  - rewrite (Slider_run _ _ _ _ _ _ _ Hp). simpl.
    rewrite lookup_insert_ne; [done|].
    intros E. rewrite <- E, alloc_fresh in Hl. done.
  - unfold Slider. erewrite bind_throw; [done|].
    unfold readObj. by rewrite Hp.
Qed.

Lemma step_preserves extern rc context s e l o :
  st_heap s !! l = Some o → st_heap (step extern rc context s e) !! l = Some o.
Proof.
  intros Hl. destruct e; cbn [step st_heap]; [| |done|done].
  - by apply Slider_preserves.
  - by apply handleWithTooltip_preserves.
Qed.

Lemma run_preserves extern rc context events : ∀ s l o,
  st_heap s !! l = Some o →
  st_heap (run extern rc context s events) !! l = Some o.
Proof.
  induction events as [|e events IH]; intros s l o Hl; [done|].
  cbn [run foldl]. apply IH. by apply step_preserves.
Qed.

(** C9: rendering leaves the caller's props object as it found it.  A
    render pass changes no object that the store already holds, the
    object behind [props] among them; the rtl inversion of [reverse] is
    written to the [restProps] copy, a fresh object.  The handle renderer
    and the pointer events change no stored object either, so the props
    object holds its original fields after any sequence of events. *)
Theorem Slider_props_untouched extern rc context visibles props ref h :
  let h' := (Slider rc context visibles props ref h).2 in
  h' !! props = h !! props ∧
  (∀ l o, h !! l = Some o → h' !! l = Some o) ∧
  (∀ p, h !! props = Some p →
     ∃ copy,
       h' = <[fresh (dom h) := copy]> h ∧
       fresh (dom h) ≠ props ∧
       get copy "reverse"
         = (if strict_eq (direction context) (VString "rtl")
               && negb (truthy (get p "vertical"))
            then js_not (get p "reverse") else get p "reverse")) ∧
  (∀ vs events p,
     h !! props = Some p →
     st_heap (run extern rc context
                {| st_visibles := vs; st_heap := h |} events)
       !! props = Some p).
Proof.
  intros h'.
  assert (Hf : h !! fresh (dom h) = None) by apply alloc_fresh.
  split; [|split; [|split]].
  - destruct (h !! props) as [p|] eqn:Hp.
    + by apply Slider_preserves.
    + unfold h', Slider. erewrite bind_throw; [done|].
      unfold readObj. by rewrite Hp.
  - intros l o Hl. by apply Slider_preserves.
  - intros p Hp. eexists. split; [|split].
    + unfold h'. by rewrite (Slider_run _ _ _ _ _ _ _ Hp).
    + congruence.
    + apply rest_reverse.
  - intros vs events p Hp. by apply run_preserves.
Qed.

Lemma Slider_props_untouched_witness :
  (Slider samplePrimitives (sampleContext (VString "rtl")) ∅ 1%positive VNull
     rangeHeap).2
    !! 1%positive = Some rangeProps ∧
  get rangeProps "reverse" = VBool true.
Proof.
  split; [|reflexivity].
  destruct (Slider_props_untouched noExtern samplePrimitives
              (sampleContext (VString "rtl")) ∅ 1%positive VNull rangeHeap) as (_ & Hframe & _).
  apply Hframe. reflexivity.
Defined.

(** * Further properties *)

(** ** What a render pass forwards *)

Lemma createElement_reserved (defaults config : Obj) type k :
  k ∈ [ "key"; "ref"; "__self"; "__source" ] →
  el_props (createElement defaults type config []) !! k = defaults !! k.
Proof.
  intros Hk. unfold createElement. cbn [el_props].
  set (own := delete "key" _).
  assert (Hown : own !! k = None).
  { unfold own.
    repeat (apply elem_of_cons in Hk as [->|Hk];
            [by rewrite ?(lookup_delete_ne _ "key"), ?lookup_delete_eq,
                        ?(lookup_delete_ne _ "ref"), ?lookup_delete_eq,
                        ?(lookup_delete_ne _ "__self"), ?lookup_delete_eq
               by done|]).
    by apply elem_of_nil in Hk. }
  rewrite resolveDefaultProps_lookup. unfold get. rewrite Hown. simpl.
  by destruct (defaults !! k).
Qed.

Lemma createElement_absent (defaults config : Obj) type k :
  config !! k = None →
  el_props (createElement defaults type config []) !! k = defaults !! k.
Proof.
  intros Hk. unfold createElement. cbn [el_props].
  set (own := delete "key" _).
  assert (Hown : own !! k = None).
  { unfold own. rewrite !lookup_delete_None. auto. }
  rewrite resolveDefaultProps_lookup. unfold get. rewrite Hown. simpl.
  by destruct (defaults !! k).
Qed.

(** X1: every prop that the component does not compute itself ([min],
    [max], [marks], [disabled], the tooltip options, ...) is forwarded to
    the primitive as the caller gave it, and [range] and
    [tooltipPrefixCls] are held back.  The element of the primitive
    holds the caller's value of such a prop, and where the caller has
    none, or has [undefined], the primitive's own default if it declares
    one. *)
Theorem Slider_passes_through rc context visibles props ref h p :
  h !! props = Some p →
  get p "range" ≠ VNull →
  (∀ l, get p "range" = VObject l → is_Some (h !! l)) →
  let defaults := if truthy (get p "range")
                  then RcRange_defaultProps rc else RcSlider_defaultProps rc in
  let type := if truthy (get p "range") then RcRange else RcSlider in
  let computed := [ "prefixCls"; "tooltipPrefixCls"; "range"; "className";
                    "reverse"; "step"; "draggableTrack"; "handle"; "ref" ] in
  let reserved := [ "key"; "__self"; "__source" ] in
  ∃ config el h',
    Slider rc context visibles props ref h = (Normal el, h') ∧
    el = createElement defaults type config [] ∧
    (∀ k, k ∉ computed → config !! k = p !! k) ∧
    config !! "range" = None ∧
    config !! "tooltipPrefixCls" = None ∧
    (∀ k v, k ∉ computed → k ∉ reserved →
       p !! k = Some v → v ≠ VUndefined → el_props el !! k = Some v) ∧
    (∀ k, k ∉ computed → k ∉ reserved →
       get p k = VUndefined →
       el_props el !! k = match defaults !! k with
                          | Some d => Some d
                          | None => p !! k
                          end) ∧
    el_props el !! "range" = defaults !! "range" ∧
    el_props el !! "tooltipPrefixCls" = defaults !! "tooltipPrefixCls".
Proof.
  intros Hp Hnull Hobj. cbv zeta.
  destruct (range_read h _ Hnull Hobj) as [dt Hdt].
  destruct (Slider_forwards rc context visibles props ref h p dt Hp Hdt)
    as (config & h' & Hrun & _ & _ & _ & _ & _ & _ & _ & Hrange & Htp & Hpass).
  eexists config, _, h'. split; [exact Hrun|]. split; [reflexivity|].
  split; [exact Hpass|]. split; [exact Hrange|]. split; [exact Htp|].
  assert (Hnames : ∀ k,
            k ∉ [ "prefixCls"; "tooltipPrefixCls"; "range"; "className";
                  "reverse"; "step"; "draggableTrack"; "handle"; "ref" ] →
            k ∉ [ "key"; "__self"; "__source" ] →
            k ≠ "key" ∧ k ≠ "ref" ∧ k ≠ "__self" ∧ k ≠ "__source").
  { intros k Hc Hr.
    repeat (apply not_elem_of_cons in Hc as [? Hc]).
    repeat (apply not_elem_of_cons in Hr as [? Hr]). done. }
  split; [|split; [|split]].
  - intros k v Hc Hr Hk Hv. destruct (Hnames k Hc Hr) as (? & ? & ? & ?).
    apply createElement_defined; try done. by rewrite Hpass.
  - intros k Hc Hr Hk. destruct (Hnames k Hc Hr) as (? & ? & ? & ?).
    rewrite createElement_props by done.
    unfold get. rewrite (Hpass k Hc). fold (get p k). by rewrite Hk.
  - by apply createElement_absent.
  - by apply createElement_absent.
Qed.

Lemma Slider_passes_through_witness :
  ∃ el h',
    Slider samplePrimitives (sampleContext (VString "rtl")) ∅ 1%positive
      VNull customHeap = (Normal el, h') ∧
    el_props el !! "min" = Some (VNumber (Number_ofZ 0)) ∧
    el_props el !! "max" = Some (VNumber (Number_ofZ 100)) ∧
    el_props el !! "marks" = None.
Proof.
  destruct (Slider_passes_through samplePrimitives
              (sampleContext (VString "rtl")) ∅ 1%positive VNull customHeap
              customProps)
    as (config & el & h' & Hrun & _ & _ & _ & _ & Hgiven & Hmissing & _).
  - reflexivity.
  - vm_compute. discriminate.
  - intros l Hl. vm_compute in Hl. discriminate.
  - assert (Hnot : ∀ (k : string) (l : list string),
              bool_decide (k ∈ l) = false → k ∉ l)
      by (intros k l; apply bool_decide_eq_false).
    exists el, h'. split; [exact Hrun|]. split; [|split].
    + apply Hgiven; [by apply Hnot | by apply Hnot | reflexivity
                    | discriminate].
    + rewrite Hmissing; [reflexivity | by apply Hnot | by apply Hnot
                        | reflexivity].
    + rewrite Hmissing; [reflexivity | by apply Hnot | by apply Hnot
                        | reflexivity].
Defined.

Lemma classNames_string c key (cond : bool) :
  c ≠ "" →
  classNames (VString c) key cond = if cond then c +:+ " " +:+ key else c.
Proof.
  intros Hc. unfold classNames. simpl.
  destruct (String.eqb_spec c ""); [done|]. by destruct cond.
Qed.

(** X2: the props that the component computes win over the caller's.
    The primitive gets the resolved [prefixCls], the handle renderer of
    this pass bound to the two resolved prefixes (a caller's own [handle]
    is dropped), the forwarded [ref] as the element's ref ([null] for a
    ref that is [undefined]) and not as a prop, and a [className] that is
    the caller's class followed, under rtl only, by the [-rtl] modifier
    of the resolved prefix. *)
Theorem Slider_computed_props rc context visibles props ref h p :
  h !! props = Some p →
  get p "range" ≠ VNull →
  (∀ l, get p "range" = VObject l → is_Some (h !! l)) →
  ∃ el h',
    Slider rc context visibles props ref h = (Normal el, h') ∧
    let prefixCls :=
      getPrefixCls context (VString "slider") (get p "prefixCls") in
    let rtl := strict_eq (direction context) (VString "rtl") in
    let defaults := if truthy (get p "range")
                    then RcRange_defaultProps rc
                    else RcSlider_defaultProps rc in
    el_props el !! "prefixCls" = Some (VString prefixCls) ∧
    el_props el !! "handle"
      = Some (VFunction
                (HandleFn visibles props
                   (getPrefixCls context (VString "tooltip")
                      (get p "tooltipPrefixCls")) prefixCls)) ∧
    el_ref el = (if strict_eq ref VUndefined then VNull else ref) ∧
    el_props el !! "ref" = defaults !! "ref" ∧
    (∀ c, get p "className" = VString c → c ≠ "" →
       el_props el !! "className"
         = Some (VString (if rtl then c +:+ " " +:+ prefixCls +:+ "-rtl"
                          else c))) ∧
    (get p "className" = VUndefined →
       el_props el !! "className"
         = Some (VString (if rtl then prefixCls +:+ "-rtl" else ""))).
Proof.
  intros Hp Hnull Hobj.
  destruct (range_read h _ Hnull Hobj) as [dt Hdt].
  destruct (Slider_forwards rc context visibles props ref h p dt Hp Hdt)
    as (config & h' & Hrun & _ & _ & _ & Hcls & Href & Hhandle & Hprefix & _).
  eexists _, h'. split; [exact Hrun|]. cbv zeta.
  split; [|split; [|split; [|split; [|split]]]].
  - by apply createElement_defined.
  - by apply createElement_defined.
  - unfold createElement, refOf. cbn [el_ref]. unfold get. by rewrite Href.
  - apply createElement_reserved. repeat constructor.
  - intros c Hc Hne. rewrite Hc, classNames_string in Hcls by done.
    by apply createElement_defined.
  - intros Hc. rewrite Hc in Hcls. apply createElement_defined; try done.
    rewrite Hcls. unfold classNames. simpl.
    by destruct (strict_eq (direction context) (VString "rtl")).
Qed.

Lemma Slider_computed_props_witness :
  ∃ el h',
    Slider samplePrimitives (sampleContext (VString "rtl")) sampleVisibles
      1%positive (VObject 9%positive) customHeap = (Normal el, h') ∧
    el_props el !! "className" = Some (VString "mine my-slider-rtl") ∧
    el_props el !! "handle"
      = Some (VFunction
                (HandleFn sampleVisibles 1%positive "ant-tooltip"
                   "my-slider")) ∧
    el_ref el = VObject 9%positive.
Proof.
  destruct (Slider_computed_props samplePrimitives
              (sampleContext (VString "rtl")) sampleVisibles 1%positive
              (VObject 9%positive) customHeap customProps)
    as (el & h' & Hrun & _ & Hhandle & Href & _ & Hcls & _).
  - reflexivity.
  - vm_compute. discriminate.
  - intros l Hl. vm_compute in Hl. discriminate.
  - exists el, h'. split; [exact Hrun|]. split; [|split].
    + rewrite (Hcls "mine"); [reflexivity | reflexivity | discriminate].
    + exact Hhandle.
    + exact Href.
Defined.

(** ** When a render pass fails, and what repeating it gives *)

(** X3: a render pass fails on [range={null}] and on nothing else.
    [typeof null] is ["object"], so the pass reads [draggableTrack] from
    [null] and throws a [TypeError]; with any other [range] the pass
    returns an element. *)
Theorem Slider_completion rc context visibles props ref h p :
  h !! props = Some p →
  (∀ l, get p "range" = VObject l → is_Some (h !! l)) →
  (get p "range" = VNull →
     (Slider rc context visibles props ref h).1 = Throw TypeError) ∧
  (get p "range" ≠ VNull →
     ∃ el, (Slider rc context visibles props ref h).1 = Normal el) ∧
  ((Slider rc context visibles props ref h).1 = Throw TypeError ↔
     get p "range" = VNull).
Proof.
  intros Hp Hobj.
  assert (Hthrow : get p "range" = VNull →
            (Slider rc context visibles props ref h).1 = Throw TypeError).
  { intros Hr. rewrite (Slider_run _ _ _ _ _ _ _ Hp), Hr. reflexivity. }
  assert (Hok : get p "range" ≠ VNull →
            ∃ el, (Slider rc context visibles props ref h).1 = Normal el).
  { intros Hr. destruct (range_read h _ Hr Hobj) as [dt Hdt].
    eexists. by rewrite (Slider_normal _ _ _ _ _ _ _ _ Hp Hdt). }
  split; [done|]. split; [done|]. split; [|done].
  intros Hrun. destruct (decide (get p "range" = VNull)) as [|Hr]; [done|].
  destruct (Hok Hr) as [el Hel]. congruence.
Qed.

Lemma Slider_completion_witness :
  (Slider samplePrimitives (sampleContext (VString "ltr")) ∅ 1%positive VNull
     nullRangeHeap).1
    = Throw TypeError.
Proof.
  destruct (Slider_completion samplePrimitives
              (sampleContext (VString "ltr")) ∅ 1%positive
              VNull nullRangeHeap
              (resolveDefaultProps Slider_defaultProps {[ "range" := VNull ]}))
    as (Hnull & _).
  - reflexivity.
  - intros l Hl. vm_compute in Hl. discriminate.
  - apply Hnull. reflexivity.
Defined.

(** A read that succeeds gives the same value in every store that holds
    at least the same objects. *)
Lemma getProp_mono v k (h h2 : Heap) x :
  (getProp v k h).1 = Normal x →
  (∀ l o, h !! l = Some o → h2 !! l = Some o) →
  (getProp v k h2).1 = Normal x.
Proof.
  intros Hx Hsub. destruct v as [| | | | |l|]; try discriminate Hx.
  unfold getProp, bind, readObj, ret in *.
  destruct (h !! l) as [o|] eqn:E; [|discriminate Hx].
  by rewrite (Hsub _ _ E).
Qed.

(** Two configs that agree on a name give elements that agree on it. *)
Lemma createElement_lookup_ext (defaults c c' : Obj) type k :
  c !! k = c' !! k →
  el_props (createElement defaults type c []) !! k
  = el_props (createElement defaults type c' []) !! k.
Proof.
  intros Hk. unfold createElement. cbn [el_props].
  rewrite !resolveDefaultProps_lookup. unfold get.
  rewrite !lookup_delete. repeat case_decide; by rewrite ?Hk.
Qed.

(** Two render passes differ in the handle renderer only: everything
    else of the config is computed from the props and the context. *)
Lemma Slider_handle_only rc context visibles visibles' props ref
    (h h2 : Heap) p dt :
  h !! props = Some p →
  h2 !! props = Some p →
  ((if String.eqb (typeof (get p "range")) "object"
    then getProp (get p "range") "draggableTrack"
    else mret VUndefined) h).1 = Normal dt →
  ((if String.eqb (typeof (get p "range")) "object"
    then getProp (get p "range") "draggableTrack"
    else mret VUndefined) h2).1 = Normal dt →
  let defaults := if truthy (get p "range")
                  then RcRange_defaultProps rc else RcSlider_defaultProps rc in
  let type := if truthy (get p "range") then RcRange else RcSlider in
  let prefixCls := getPrefixCls context (VString "slider") (get p "prefixCls") in
  let tooltipPrefixCls :=
    getPrefixCls context (VString "tooltip") (get p "tooltipPrefixCls") in
  ∃ (base : Obj) h' h2',
    Slider rc context visibles props ref h
      = (Normal
           (createElement defaults type
              (<["prefixCls" := VString prefixCls]>
                 (<["handle" :=
                      VFunction
                        (HandleFn visibles props tooltipPrefixCls prefixCls)]>
                    base)) []), h') ∧
    Slider rc context visibles' props ref h2
      = (Normal
           (createElement defaults type
              (<["prefixCls" := VString prefixCls]>
                 (<["handle" :=
                      VFunction
                        (HandleFn visibles' props tooltipPrefixCls prefixCls)]>
                    base)) []), h2').
Proof.
  intros Hp Hp2 Hdt Hdt2. cbv zeta.
  rewrite (Slider_normal _ _ _ _ _ _ _ _ Hp Hdt),
          (Slider_normal _ _ _ _ _ _ _ _ Hp2 Hdt2).
  unfold jsx. destruct (truthy (get p "range"));
    cbn [jsxConfig foldl app]; eexists _, _, _; split; reflexivity.
Qed.

(** X4: rendering again gives the same element but for its handle
    renderer.  After any sequence of renders, handle calls and pointer
    events, a render pass with the same props and context returns an
    element of the same type, key, ref and children, and with the same
    props under every name other than [handle]; the [handle] prop is the
    renderer of the pass it comes from, which holds the visibility map of
    that pass.  In particular the rtl inversion of [reverse] does not add
    up from one pass to the next. *)
Theorem Slider_rerender extern rc context props ref h p visibles events :
  h !! props = Some p →
  get p "range" ≠ VNull →
  (∀ l, get p "range" = VObject l → is_Some (h !! l)) →
  let s' := run extern rc context
              {| st_visibles := visibles; st_heap := h |} events in
  let defaults := if truthy (get p "range")
                  then RcRange_defaultProps rc else RcSlider_defaultProps rc in
  let prefixCls := getPrefixCls context (VString "slider") (get p "prefixCls") in
  let tooltipPrefixCls :=
    getPrefixCls context (VString "tooltip") (get p "tooltipPrefixCls") in
  let reverse := if strict_eq (direction context) (VString "rtl")
                    && negb (truthy (get p "vertical"))
                 then js_not (get p "reverse") else get p "reverse" in
  ∃ el el',
    (Slider rc context visibles props ref h).1 = Normal el ∧
    (Slider rc context (st_visibles s') props ref (st_heap s')).1
      = Normal el' ∧
    el_type el' = el_type el ∧
    el_key el' = el_key el ∧
    el_ref el' = el_ref el ∧
    el_children el' = el_children el ∧
    (∀ k, k ≠ "handle" → el_props el' !! k = el_props el !! k) ∧
    el_props el !! "handle"
      = Some (VFunction
                (HandleFn visibles props tooltipPrefixCls prefixCls)) ∧
    el_props el' !! "handle"
      = Some (VFunction
                (HandleFn (st_visibles s') props tooltipPrefixCls
                   prefixCls)) ∧
    get (el_props el') "reverse"
      = (if strict_eq reverse VUndefined
         then get defaults "reverse" else reverse).
Proof.
  intros Hp Hnull Hobj. cbv zeta.
  destruct (range_read h _ Hnull Hobj) as [dt Hdt].
  set (s := {| st_visibles := visibles; st_heap := h |}).
  set (s' := run extern rc context s events).
  assert (Hsub : ∀ l o, h !! l = Some o → st_heap s' !! l = Some o)
    by (intros l o Hl; by apply run_preserves).
  assert (Hdt2 :
    ((if String.eqb (typeof (get p "range")) "object"
      then getProp (get p "range") "draggableTrack"
      else mret VUndefined) (st_heap s')).1 = Normal dt).
  { destruct (String.eqb (typeof (get p "range")) "object");
      [by apply (getProp_mono _ _ h) | done]. }
  destruct (Slider_handle_only rc context visibles (st_visibles s') props ref
              h (st_heap s') p dt Hp (Hsub _ _ Hp) Hdt Hdt2)
    as (base & h1 & h2 & Hfirst & Hagain).
  destruct (Slider_forwards rc context (st_visibles s') props ref (st_heap s')
              p dt (Hsub _ _ Hp) Hdt2)
    as (config & h3 & Hrun & Hrev & _).
  eexists _, _. rewrite Hfirst, Hagain.
  split; [reflexivity|]. split; [reflexivity|]. split; [reflexivity|].
  split; [|split; [|split; [|split; [|split; [|split]]]]].
  - unfold createElement. cbn [el_key]. by rewrite !get_insert_ne.
  - unfold createElement. cbn [el_ref]. by rewrite !get_insert_ne.
  - reflexivity.
  - intros k Hk. apply createElement_lookup_ext.
    destruct (decide (k = "prefixCls")) as [->|];
      [by rewrite !lookup_insert_eq|].
    by rewrite !lookup_insert_ne.
  - apply createElement_defined; try done.
    by rewrite lookup_insert_ne, lookup_insert_eq.
  - apply createElement_defined; try done.
    by rewrite lookup_insert_ne, lookup_insert_eq.
  - rewrite Hagain in Hrun.
    match type of Hrun with
    | (Normal ?a, _) = (Normal ?b, _) =>
        assert (Hel : a = b) by congruence
    end.
    assert (Hg : get config "reverse"
                 = if strict_eq (direction context) (VString "rtl")
                      && negb (truthy (get p "vertical"))
                   then js_not (get p "reverse") else get p "reverse").
    { unfold get at 1. rewrite Hrev.
      by destruct (strict_eq (direction context) (VString "rtl")
                   && negb (truthy (get p "vertical"))). }
    by rewrite Hel, createElement_get, Hg by done.
Qed.

Lemma Slider_rerender_witness :
  ∃ el',
    (Slider samplePrimitives (sampleContext (VString "rtl"))
       {[ "0" := false ]} 1%positive VNull
       (st_heap (run noExtern samplePrimitives (sampleContext (VString "rtl"))
                   {| st_visibles := ∅; st_heap := singleHeap |}
                   sampleEvents))).1 = Normal el' ∧
    el_props el' !! "handle"
      = Some (VFunction
                (HandleFn {[ "0" := false ]} 1%positive "ant-tooltip"
                   "ant-slider")) ∧
    get (el_props el') "reverse" = VBool true.
Proof.
  destruct (Slider_rerender noExtern samplePrimitives
              (sampleContext (VString "rtl"))
              1%positive VNull singleHeap singleProps ∅ sampleEvents)
    as (el & el' & _ & Hagain & _ & _ & _ & _ & _ & _ & Hhandle & Hrev).
  - reflexivity.
  - vm_compute. discriminate.
  - intros l Hl. vm_compute in Hl. discriminate.
  - assert (Hv : st_visibles
                   (run noExtern samplePrimitives
                      (sampleContext (VString "rtl"))
                      {| st_visibles := ∅; st_heap := singleHeap |}
                      sampleEvents) = {[ "0" := false ]})
      by (vm_compute; reflexivity).
    rewrite Hv in Hagain, Hhandle.
    exists el'. split; [exact Hagain|]. split; [exact Hhandle|].
    rewrite Hrev. reflexivity.
Defined.

(** ** When the handle renderer fails *)

Lemma handleWithTooltip_title_throws extern context visibles props
    tooltipPrefixCls prefixCls info h p bag e :
  h !! props = Some p →
  (get p "tooltipProps" = VUndefined ∧ bag = ∅)
  ∨ (∃ l, get p "tooltipProps" = VObject l ∧ h !! l = Some bag) →
  (if truthy (get p "tipFormatter")
   then applyFunction extern (get p "tipFormatter") (value info)
   else Normal (VString "")) = Throw e →
  (handleWithTooltip extern context visibles props tooltipPrefixCls prefixCls
     info h).1 = Throw e.
Proof.
  intros Hp Hbag Htitle.
  unfold handleWithTooltip.
  rewrite (bind_normal _ _ _ _ _ (readObj_some _ _ _ Hp)).
  assert (Hcall :
    ∀ h1 : Heap,
      (if truthy (get p "tipFormatter")
       then call extern (get p "tipFormatter") (value info)
       else mret (VString "")) h1 = (Throw e, h1)).
  { intros h1. unfold call. destruct (truthy (get p "tipFormatter"));
      [by rewrite Htitle | by inversion Htitle]. }
  destruct Hbag as [[Hu ->] | (l & Hl & Hb)].
  - rewrite Hu. change (strict_eq VUndefined VUndefined) with true. cbv iota.
    rewrite (bind_normal _ _ h (VObject (fresh (dom h)))
               (<[fresh (dom h) := ∅]> h)) by reflexivity.
    rewrite (bind_normal _ _ _ _ _
               (getProp_object _ "transitionName" _ ∅ (lookup_insert_eq _ _ _))).
    by rewrite (bind_throw _ _ _ _ _ (Hcall _)).
  - rewrite Hl. change (strict_eq (VObject l) VUndefined) with false. cbv iota.
    rewrite (bind_normal _ _ h (VObject l) h) by reflexivity.
    rewrite (bind_normal _ _ _ _ _ (getProp_object _ "transitionName" _ _ Hb)).
    by rewrite (bind_throw _ _ _ _ _ (Hcall _)).
Qed.

(** X5: how the handle renderer fails.  [tooltipProps={null}] is not
    replaced by the empty default (only [undefined] is), and reading
    [transitionName] from it throws a [TypeError]; a formatter that
    throws makes the renderer throw the same exception; a truthy
    [tipFormatter] that is no function throws a [TypeError]; and without
    a formatter the renderer returns a tooltip and calls nothing. *)
Theorem handleWithTooltip_failures extern context visibles props
    tooltipPrefixCls prefixCls info h p :
  h !! props = Some p →
  let run := (handleWithTooltip extern context visibles props
                tooltipPrefixCls prefixCls info h).1 in
  let bagOf bag :=
    (get p "tooltipProps" = VUndefined ∧ bag = ∅)
    ∨ (∃ l, get p "tooltipProps" = VObject l ∧ h !! l = Some bag) in
  (get p "tooltipProps" = VNull → run = Throw TypeError) ∧
  (∀ (bag : Obj) id e,
     bagOf bag →
     get p "tipFormatter" = VFunction (External id) →
     extern id (value info) = Throw e →
     run = Throw e) ∧
  (∀ bag : Obj,
     bagOf bag →
     truthy (get p "tipFormatter") = true →
     (∀ c, get p "tipFormatter" ≠ VFunction c) →
     run = Throw TypeError) ∧
  (∀ bag : Obj,
     bagOf bag →
     truthy (get p "tipFormatter") = false →
     ∃ el, run = Normal el ∧ el_type el = SliderTooltip).
Proof.
  intros Hp run bagOf. subst run bagOf. cbv beta.
  split; [|split; [|split]].
  - intros Hnull. unfold handleWithTooltip.
    rewrite (bind_normal _ _ _ _ _ (readObj_some _ _ _ Hp)), Hnull.
    reflexivity.
  - intros bag id e Hbag Hf He.
    apply handleWithTooltip_title_throws with (p := p) (bag := bag); [done..|].
    by rewrite Hf.
  - intros bag Hbag Ht Hf.
    apply handleWithTooltip_title_throws with (p := p) (bag := bag); [done..|].
    rewrite Ht. destruct (get p "tipFormatter") as [| | | | | |c];
      try done. by destruct (Hf c).
  - intros bag Hbag Ht. eexists. split.
    + rewrite (handleWithTooltip_normal _ _ _ _ _ _ _ _ _ bag (VString "")
                 Hp Hbag); [reflexivity|]. by rewrite Ht.
    + reflexivity.
Qed.

Lemma handleWithTooltip_failures_witness :
  (handleWithTooltip noExtern (sampleContext (VString "ltr")) sampleVisibles
     1%positive "ant-tooltip" "ant-slider" sampleInfo nullBagHeap).1
    = Throw TypeError.
Proof.
  destruct (handleWithTooltip_failures noExtern (sampleContext (VString "ltr"))
              sampleVisibles 1%positive "ant-tooltip" "ant-slider" sampleInfo
              nullBagHeap
              (resolveDefaultProps Slider_defaultProps
                 {[ "tooltipProps" := VNull ]}) eq_refl) as (Hnull & _).
  apply Hnull. reflexivity.
Defined.

(** ** The formatter that a slider ends up with *)

Lemma resolveDefaultProps_Slider (config : Obj) :
  resolveDefaultProps Slider_defaultProps config
  = if strict_eq (get config "tipFormatter") VUndefined
    then <["tipFormatter" := VFunction DefaultTipFormatter]> config
    else config.
Proof. unfold resolveDefaultProps, Slider_defaultProps. apply map_fold_singleton. Qed.

Lemma resolveDefaultProps_other (config : Obj) k :
  k ≠ "tipFormatter" →
  get (resolveDefaultProps Slider_defaultProps config) k = get config k.
Proof.
  intros Hk. rewrite resolveDefaultProps_Slider.
  destruct (strict_eq _ _); [by rewrite get_insert_ne | done].
Qed.

Lemma resolveDefaultProps_given (config : Obj) :
  get config "tipFormatter" ≠ VUndefined →
  get (resolveDefaultProps Slider_defaultProps config) "tipFormatter"
    = get config "tipFormatter".
Proof.
  intros Hk. rewrite resolveDefaultProps_Slider.
  apply strict_eq_false in Hk; [|done]. by rewrite Hk.
Qed.

Lemma tooltip_title (bag : Obj) a1 a2 a3 a4 a5 a6 a7 a8 c :
  bag !! "title" = None →
  get (el_props (jsx SliderTooltip_defaultProps SliderTooltip
    [ Attr "prefixCls" a1; Attr "title" a2; Attr "visible" a3;
      Attr "placement" a4; Attr "key" a5; Attr "overlayClassName" a6;
      Attr "getPopupContainer" a7; Spread bag; Attr "transitionName" a8 ]
    [c])) "title" = a2.
Proof. intros. read_props. rewrite get_union_r by done. by read_props. Qed.

Lemma tooltip_visible_prop (bag : Obj) a1 a2 a3 a4 a5 a6 a7 a8 c :
  bag !! "visible" = None →
  get (el_props (jsx SliderTooltip_defaultProps SliderTooltip
    [ Attr "prefixCls" a1; Attr "title" a2; Attr "visible" a3;
      Attr "placement" a4; Attr "key" a5; Attr "overlayClassName" a6;
      Attr "getPopupContainer" a7; Spread bag; Attr "transitionName" a8 ]
    [c])) "visible" = a3.
Proof. intros. read_props. rewrite get_union_r by done. by read_props. Qed.

(** X6: a slider whose caller gives no [tipFormatter] shows the value.
    React fills in the default formatter, the renderer calls it and no
    function of the caller, and the title of the tooltip is what
    [toString] gives for the handle's value, whichever number that is,
    or the empty string while the handle has no value. *)
Theorem default_formatter_title extern context visibles props
    tooltipPrefixCls prefixCls info h (config bag : Obj) :
  h !! props = Some (resolveDefaultProps Slider_defaultProps config) →
  get config "tipFormatter" = VUndefined →
  (get config "tooltipProps" = VUndefined ∧ bag = ∅)
  ∨ (∃ l, get config "tooltipProps" = VObject l ∧ h !! l = Some bag) →
  bag !! "title" = None →
  ∃ el h',
    handleWithTooltip extern context visibles props tooltipPrefixCls
      prefixCls info h = (Normal el, h') ∧
    get (el_props el) "title" = tipFormatter (value info) ∧
    (∀ x : Number, value info = VNumber x →
       get (el_props el) "title" = VString (Number_toString x)) ∧
    (value info = VUndefined → get (el_props el) "title" = VString "").
Proof.
  intros Hp Hf Hbag Htitle.
  set (p := resolveDefaultProps Slider_defaultProps config) in *.
  assert (Hpf : get p "tipFormatter" = VFunction DefaultTipFormatter)
    by by apply resolveDefaultProps_tipFormatter.
  assert (Hbag' : (get p "tooltipProps" = VUndefined ∧ bag = ∅)
                  ∨ (∃ l, get p "tooltipProps" = VObject l ∧ h !! l = Some bag))
    by (unfold p; by rewrite resolveDefaultProps_other).
  eexists _, _. split.
  - apply (handleWithTooltip_normal _ _ _ _ _ _ _ _ _ bag
             (tipFormatter (value info)) Hp Hbag').
    by rewrite Hpf.
  - rewrite tooltip_title by done. split; [done|].
    split; [by intros x -> | by intros ->].
Qed.

Lemma default_formatter_title_witness :
  ∃ el h',
    handleWithTooltip noExtern (sampleContext (VString "ltr")) sampleVisibles
      1%positive "ant-tooltip" "ant-slider"
      {| value := VNumber (Finite false 5 (-1)); dragging := VBool true;
         index := 0; restProps := ∅ |} singleHeap
      = (Normal el, h') ∧
    get (el_props el) "title" = VString "2.5".
Proof.
  destruct (default_formatter_title noExtern (sampleContext (VString "ltr"))
              sampleVisibles 1%positive "ant-tooltip" "ant-slider"
              {| value := VNumber (Finite false 5 (-1));
                 dragging := VBool true; index := 0; restProps := ∅ |}
              singleHeap {[ "step" := VNull ]} ∅)
    as (el & h' & Hrun & _ & Hnum & _).
  - reflexivity.
  - reflexivity.
  - left. split; reflexivity.
  - reflexivity.
  - exists el, h'. split; [exact Hrun|].
    rewrite (Hnum (Finite false 5 (-1))); reflexivity.
Defined.

(** X7: [tipFormatter={null}] switches the hover tooltip off.  The
    default does not replace a [null], so the title is the empty string
    and the tooltip is shown exactly when [tooltipVisible] is truthy:
    with [tooltipVisible] unset the [visible] prop is [false] whether or
    not the handle is hovered or dragged. *)
Theorem null_formatter_hides extern context visibles props
    tooltipPrefixCls prefixCls info h (config bag : Obj) :
  h !! props = Some (resolveDefaultProps Slider_defaultProps config) →
  get config "tipFormatter" = VNull →
  (get config "tooltipProps" = VUndefined ∧ bag = ∅)
  ∨ (∃ l, get config "tooltipProps" = VObject l ∧ h !! l = Some bag) →
  ∃ el h',
    handleWithTooltip extern context visibles props tooltipPrefixCls
      prefixCls info h = (Normal el, h') ∧
    (bag !! "title" = None → get (el_props el) "title" = VString "") ∧
    (bag !! "visible" = None →
       truthy (get (el_props el) "visible")
         = truthy (get config "tooltipVisible")) ∧
    (bag !! "visible" = None → get config "tooltipVisible" = VUndefined →
       get (el_props el) "visible" = VBool false).
Proof.
  intros Hp Hf Hbag.
  set (p := resolveDefaultProps Slider_defaultProps config) in *.
  assert (Hpf : get p "tipFormatter" = VNull)
    by (unfold p; rewrite resolveDefaultProps_given; by rewrite Hf).
  assert (Hv : get p "tooltipVisible" = get config "tooltipVisible")
    by by apply resolveDefaultProps_other.
  assert (Hbag' : (get p "tooltipProps" = VUndefined ∧ bag = ∅)
                  ∨ (∃ l, get p "tooltipProps" = VObject l ∧ h !! l = Some bag))
    by (unfold p; by rewrite resolveDefaultProps_other).
  eexists _, _. split.
  - apply (handleWithTooltip_normal _ _ _ _ _ _ _ _ _ bag (VString "")
             Hp Hbag'). by rewrite Hpf.
  - split; [intros; by rewrite tooltip_title|].
    split.
    + intros Hb. rewrite tooltip_visible_prop, Hpf, Hv by done.
      unfold isTipFormatter, visible, js_or, js_and.
      destruct (truthy (get config "tooltipVisible")) eqn:E; [done|].
      simpl. by destruct (strict_eq _ _).
    + intros Hb Hu. by rewrite tooltip_visible_prop, Hpf, Hv, Hu.
Qed.

Lemma null_formatter_hides_witness :
  ∃ el h',
    handleWithTooltip noExtern (sampleContext (VString "ltr")) sampleVisibles
      1%positive "ant-tooltip" "ant-slider" sampleInfo noFormatterHeap
      = (Normal el, h') ∧
    get (el_props el) "visible" = VBool false.
Proof.
  destruct (null_formatter_hides noExtern (sampleContext (VString "ltr"))
              sampleVisibles 1%positive "ant-tooltip" "ant-slider" sampleInfo
              noFormatterHeap noFormatterConfig ∅)
    as (el & h' & Hrun & _ & _ & Hhidden).
  - reflexivity.
  - reflexivity.
  - left. split; reflexivity.
  - exists el, h'. split; [exact Hrun|]. apply Hhidden; reflexivity.
Defined.

(** ** The handle inside the tooltip, and the handle prop at work *)

(** X8: what the rendered handle receives.  The tooltip wraps one
    [RcHandle]; it gets the handle's [value], the two pointer handlers of
    the component (which replace handlers of the same name that the
    primitive passed), and every other prop that the primitive passed,
    unchanged.  The [ref] and [key] that the primitive passed are no
    props: they become the ref of the handle ([null] without one) and its
    key (the key as a string, [null] without one).  The tooltip is keyed
    by the handle's index as a string, unless the [tooltipProps] bag has
    a [key] of its own. *)
Theorem handle_child extern context visibles props tooltipPrefixCls
    prefixCls info h p bag title :
  h !! props = Some p →
  (get p "tooltipProps" = VUndefined ∧ bag = ∅)
  ∨ (∃ l, get p "tooltipProps" = VObject l ∧ h !! l = Some bag) →
  (if truthy (get p "tipFormatter")
   then applyFunction extern (get p "tipFormatter") (value info)
   else Normal (VString "")) = Normal title →
  ∃ tooltip handle h',
    handleWithTooltip extern context visibles props tooltipPrefixCls
      prefixCls info h = (Normal tooltip, h') ∧
    el_children tooltip = [handle] ∧
    el_type handle = RcHandle ∧
    el_children handle = [] ∧
    el_props handle !! "value" = Some (value info) ∧
    el_props handle !! "onMouseEnter"
      = Some (VFunction (ToggleFn (index info) true)) ∧
    el_props handle !! "onMouseLeave"
      = Some (VFunction (ToggleFn (index info) false)) ∧
    (∀ k, k ∉ [ "value"; "onMouseEnter"; "onMouseLeave"; "key"; "ref";
                "__self"; "__source" ] →
          el_props handle !! k = restProps info !! k) ∧
    (∀ k, k ∈ [ "key"; "ref"; "__self"; "__source" ] →
          el_props handle !! k = None) ∧
    el_ref handle = refOf (get (restProps info) "ref") ∧
    el_key handle = keyOf (get (restProps info) "key") ∧
    (bag !! "key" = None →
       el_key tooltip
         = KeyString (Number_toString (Number_ofZ (index info)))) ∧
    (∀ v, bag !! "key" = Some v → el_key tooltip = keyOf v).
Proof.
  intros Hp Hbag Htitle.
  eexists _, _, _. split; [exact (handleWithTooltip_normal _ _ _ _ _ _ _ _ _ _ _
                                    Hp Hbag Htitle)|].
  split; [reflexivity|]. split; [reflexivity|]. split; [reflexivity|].
  unfold jsx, createElement, SliderTooltip_defaultProps,
    RcHandle_defaultProps.
  cbn [el_props el_ref el_key jsxConfig foldl].
  rewrite !resolveDefaultProps_empty, (right_id_L ∅ (∪)).
  split; [|split; [|split; [|split; [|split; [|split; [|split; [|split]]]]]]].
  - by rewrite !lookup_delete_ne, !lookup_insert_ne, lookup_insert_eq by done.
  - by rewrite !lookup_delete_ne, lookup_insert_ne, lookup_insert_eq by done.
  - by rewrite !lookup_delete_ne, lookup_insert_eq by done.
  - intros k Hk. repeat (apply not_elem_of_cons in Hk as [? Hk]).
    by rewrite !lookup_delete_ne, !lookup_insert_ne by done.
  - intros k Hk. rewrite !lookup_delete_None.
    repeat (apply elem_of_cons in Hk as [->|Hk]; [by auto|]).
    by apply elem_of_nil in Hk.
  - by rewrite !get_insert_ne by done.
  - by rewrite !get_insert_ne by done.
  - intros Hk. rewrite get_insert_ne, get_union_r by done.
    by rewrite !get_insert_ne, get_insert_eq by done.
  - intros v Hk. rewrite get_insert_ne by done.
    unfold get. by rewrite (lookup_union_Some_l _ _ _ _ Hk).
Qed.

Lemma handle_child_witness :
  ∃ tooltip handle h',
    handleWithTooltip noExtern (sampleContext (VString "ltr")) sampleVisibles
      1%positive "ant-tooltip" "ant-slider" primitiveInfo singleHeap
      = (Normal tooltip, h') ∧
    el_children tooltip = [handle] ∧
    el_props handle !! "onMouseEnter" = Some (VFunction (ToggleFn 1 true)) ∧
    el_props handle !! "offset" = Some (VNumber (Number_ofZ 40)) ∧
    el_props handle !! "ref" = None ∧
    el_ref handle = VFunction (External 4) ∧
    el_key handle = KeyNull ∧
    el_key tooltip = KeyString "1".
Proof.
  destruct (handle_child noExtern (sampleContext (VString "ltr"))
              sampleVisibles 1%positive "ant-tooltip" "ant-slider"
              primitiveInfo singleHeap singleProps ∅ (VString "40"))
    as (tooltip & handle & h' & Hrun & Hch & _ & _ & _ & Henter & _ & Hrest
        & Hreserved & Href & Hhkey & Hkey & _).
  - reflexivity.
  - left. split; reflexivity.
  - reflexivity.
  - exists tooltip, handle, h'. split; [exact Hrun|]. split; [exact Hch|].
    split; [exact Henter|].
    split; [|split; [|split; [exact Href|split; [exact Hhkey|]]]].
    + rewrite Hrest; [reflexivity|].
      repeat (apply not_elem_of_cons; split; [discriminate|]).
      apply not_elem_of_nil.
    + apply Hreserved. repeat constructor.
    + rewrite Hkey; reflexivity.
Defined.

(** X9: the [handle] prop that a render pass hands to the primitive,
    called in the store that the pass leaves, returns the tooltip that the
    handle renderer returns on the caller's store with the two resolved
    prefixes.  So the overlay class of the tooltip is built on the very
    [prefixCls] that the primitive received, the placement follows the
    caller's [vertical], and the props object is still the caller's. *)
Theorem Slider_then_handle extern rc context visibles props ref info h p bag
    title :
  h !! props = Some p →
  get p "range" ≠ VNull →
  (∀ l, get p "range" = VObject l → is_Some (h !! l)) →
  (get p "tooltipProps" = VUndefined ∧ bag = ∅)
  ∨ (∃ l, get p "tooltipProps" = VObject l ∧ h !! l = Some bag) →
  (if truthy (get p "tipFormatter")
   then applyFunction extern (get p "tipFormatter") (value info)
   else Normal (VString "")) = Normal title →
  ∃ el h1 tooltip h2,
    Slider rc context visibles props ref h = (Normal el, h1) ∧
    callHandle extern context (get (el_props el) "handle") info h1
      = (Normal tooltip, h2) ∧
    (handleWithTooltip extern context visibles props
       (getPrefixCls context (VString "tooltip") (get p "tooltipPrefixCls"))
       (getPrefixCls context (VString "slider") (get p "prefixCls"))
       info h).1 = Normal tooltip ∧
    h2 !! props = Some p ∧
    get (el_props el) "prefixCls"
      = VString (getPrefixCls context (VString "slider")
                   (get p "prefixCls")) ∧
    (bag !! "overlayClassName" = None →
       get (el_props tooltip) "overlayClassName"
         = VString (getPrefixCls context (VString "slider")
                      (get p "prefixCls") +:+ "-tooltip")) ∧
    (bag !! "placement" = None →
       get (el_props tooltip) "placement"
         = getTooltipPlacement context (get p "tooltipPlacement")
             (get p "vertical")).
Proof.
  intros Hp Hnull Hobj Hbag Htitle.
  destruct (range_read h _ Hnull Hobj) as [dt Hdt].
  destruct (Slider_forwards rc context visibles props ref h p dt Hp Hdt)
    as (config & h1 & Hrun & _ & _ & _ & _ & _ & Hhandle & Hprefix & _).
  match type of Hrun with _ = (Normal ?e, _) => set (el := e) in * end.
  assert (Hsub : ∀ l o, h !! l = Some o → h1 !! l = Some o).
  { intros l o Hl.
    pose proof (Slider_preserves rc context visibles props ref h l o Hl) as H1.
    by rewrite Hrun in H1. }
  assert (Hbag1 : (get p "tooltipProps" = VUndefined ∧ bag = ∅)
                  ∨ (∃ l, get p "tooltipProps" = VObject l
                          ∧ h1 !! l = Some bag)).
  { destruct Hbag as [?|(l & ? & ?)]; [by left|right]. eauto. }
  assert (Hhandle' : get (el_props el) "handle"
    = VFunction (HandleFn visibles props
        (getPrefixCls context (VString "tooltip") (get p "tooltipPrefixCls"))
        (getPrefixCls context (VString "slider") (get p "prefixCls")))).
  { unfold el, get at 1.
    erewrite createElement_defined;
      [reflexivity | done | done | done | done | exact Hhandle | done]. }
  assert (Hprefix' : get (el_props el) "prefixCls"
    = VString (getPrefixCls context (VString "slider") (get p "prefixCls"))).
  { unfold el, get at 1.
    erewrite createElement_defined;
      [reflexivity | done | done | done | done | exact Hprefix | done]. }
  pose proof (handleWithTooltip_normal extern context visibles props
                (getPrefixCls context (VString "tooltip")
                   (get p "tooltipPrefixCls"))
                (getPrefixCls context (VString "slider") (get p "prefixCls"))
                info h1 p bag title (Hsub _ _ Hp) Hbag1 Htitle) as Hcall.
  pose proof (handleWithTooltip_normal extern context visibles props
                (getPrefixCls context (VString "tooltip")
                   (get p "tooltipPrefixCls"))
                (getPrefixCls context (VString "slider") (get p "prefixCls"))
                info h p bag title Hp Hbag Htitle) as Hdirect.
  eexists el, h1, _, _. split; [exact Hrun|].
  split; [rewrite Hhandle'; exact Hcall|].
  split; [by rewrite Hdirect|].
  split; [|split; [exact Hprefix'|split]].
  - destruct (strict_eq (get p "tooltipProps") VUndefined); [|by apply Hsub].
    rewrite lookup_insert_ne; [by apply Hsub|].
    intros E. pose proof (alloc_fresh h1) as Hf1.
    rewrite E, (Hsub _ _ Hp) in Hf1. done.
  - intros Hk. read_props. rewrite get_union_r by done. by read_props.
  - intros Hk. read_props. rewrite get_union_r by done. by read_props.
Qed.

Lemma Slider_then_handle_witness :
  ∃ el h1 tooltip h2,
    Slider samplePrimitives (sampleContext (VString "rtl")) sampleVisibles
      1%positive VNull customHeap = (Normal el, h1) ∧
    callHandle noExtern (sampleContext (VString "rtl"))
      (get (el_props el) "handle") sampleInfo h1
      = (Normal tooltip, h2) ∧
    get (el_props tooltip) "overlayClassName" = VString "my-slider-tooltip".
Proof.
  destruct (Slider_then_handle noExtern samplePrimitives
              (sampleContext (VString "rtl"))
              sampleVisibles 1%positive VNull sampleInfo customHeap
              customProps ∅ (VString "5"))
    as (el & h1 & tooltip & h2 & Hrun & Hcall & _ & _ & _ & Hover & _).
  - reflexivity.
  - vm_compute. discriminate.
  - intros l Hl. vm_compute in Hl. discriminate.
  - left. split; reflexivity.
  - reflexivity.
  - exists el, h1, tooltip, h2. split; [exact Hrun|]. split; [exact Hcall|].
    rewrite Hover; reflexivity.
Defined.

(** ** The visibility map under several pointer events *)

(** X10: how the updates of the visibility map compose.  For one handle
    the last update wins, updates of two different handles commute, and
    an update that repeats the entry already there changes nothing. *)
Theorem toggle_compose i j b c (prev : Visibles) :
  toggleTooltipVisible i b (toggleTooltipVisible i c prev)
    = toggleTooltipVisible i b prev ∧
  (i ≠ j →
     toggleTooltipVisible i b (toggleTooltipVisible j c prev)
       = toggleTooltipVisible j c (toggleTooltipVisible i b prev)) ∧
  (prev !! ToPropertyKey i = Some b → toggleTooltipVisible i b prev = prev).
Proof.
  unfold toggleTooltipVisible. split; [|split].
  - apply insert_insert_eq.
  - intros Hij. apply insert_insert_ne. intros E. by apply (inj _) in E.
  - apply insert_id.
Qed.

Lemma toggle_compose_witness :
  toggleTooltipVisible 0 true (toggleTooltipVisible 1 false sampleVisibles)
    = toggleTooltipVisible 1 false sampleVisibles.
Proof.
  destruct (toggle_compose 0 1 true false sampleVisibles)
    as (_ & Hcomm & _).
  rewrite Hcomm by done.
  destruct (toggle_compose 0 1 true false sampleVisibles) as (_ & _ & Hid).
  by rewrite Hid.
Defined.

Lemma visiblesAt_toggle_eq i b (visibles : Visibles) :
  visiblesAt (toggleTooltipVisible i b visibles) i = VBool b.
Proof. unfold visiblesAt. by rewrite toggle_lookup_eq. Qed.

Lemma visiblesAt_toggle_ne i j b (visibles : Visibles) :
  j ≠ i →
  visiblesAt (toggleTooltipVisible i b visibles) j = visiblesAt visibles j.
Proof. intros. unfold visiblesAt. by rewrite toggle_lookup_ne. Qed.

(** X11: what the pointer does to the tooltip of a slider with a
    formatter and no [tooltipVisible].  Rendered after the pointer
    entered its handle, the tooltip is visible; rendered after the
    pointer left, its [visible] prop is the handle's [dragging] flag as
    the primitive passed it, and so it is for a handle that was never
    hovered; and the tooltip of a handle does not depend on what the
    pointer did to another handle. *)
Theorem hover_drives_visible extern context visibles props tooltipPrefixCls
    prefixCls info h p bag title :
  h !! props = Some p →
  (get p "tooltipProps" = VUndefined ∧ bag = ∅)
  ∨ (∃ l, get p "tooltipProps" = VObject l ∧ h !! l = Some bag) →
  (if truthy (get p "tipFormatter")
   then applyFunction extern (get p "tipFormatter") (value info)
   else Normal (VString "")) = Normal title →
  bag !! "visible" = None →
  get p "tooltipVisible" = VUndefined →
  truthy (get p "tipFormatter") = true →
  let shown (vs : Visibles) (v : Value) :=
    ∃ el h',
      handleWithTooltip extern context vs props tooltipPrefixCls prefixCls
        info h = (Normal el, h') ∧
      get (el_props el) "visible" = v in
  shown (toggleTooltipVisible (index info) true visibles) (VBool true) ∧
  shown (toggleTooltipVisible (index info) false visibles) (dragging info) ∧
  (visibles !! ToPropertyKey (index info) = None →
     shown visibles (dragging info)) ∧
  (∀ j b v, j ≠ index info →
     shown visibles v → shown (toggleTooltipVisible j b visibles) v).
Proof.
  intros Hp Hbag Htitle Hvis Hu Hf shown.
  assert (Hshown : ∀ vs,
            shown vs (isTipFormatter vs (get p "tipFormatter")
                        (dragging info) (index info))).
  { intros vs. eexists _, _.
    split; [exact (handleWithTooltip_normal _ _ _ _ _ _ _ _ _ _ _
                     Hp Hbag Htitle)|].
    by rewrite tooltip_visible_prop, Hu, visible_undefined. }
  split; [|split; [|split]].
  - pose proof (Hshown (toggleTooltipVisible (index info) true visibles))
      as Hs.
    unfold isTipFormatter in Hs. by rewrite Hf, visiblesAt_toggle_eq in Hs.
  - pose proof (Hshown (toggleTooltipVisible (index info) false visibles))
      as Hs.
    unfold isTipFormatter in Hs. by rewrite Hf, visiblesAt_toggle_eq in Hs.
  - intros Hnone. pose proof (Hshown visibles) as Hs.
    unfold isTipFormatter, visiblesAt in Hs. by rewrite Hf, Hnone in Hs.
  - intros j b v Hj (el & h' & Hrun & Hv).
    pose proof (Hshown (toggleTooltipVisible j b visibles)) as Hs.
    unfold isTipFormatter in Hs.
    rewrite visiblesAt_toggle_ne in Hs by done.
    destruct (Hshown visibles) as (el0 & h0 & Hrun0 & Hv0).
    rewrite Hrun in Hrun0. injection Hrun0 as <- <-.
    unfold isTipFormatter in Hv0. by rewrite <- Hv, Hv0.
Qed.

Lemma hover_drives_visible_witness :
  ∃ el h',
    handleWithTooltip noExtern (sampleContext (VString "ltr"))
      (toggleTooltipVisible 1 false sampleVisibles) 1%positive "ant-tooltip"
      "ant-slider" primitiveInfo singleHeap = (Normal el, h') ∧
    get (el_props el) "visible" = VBool false.
Proof.
  destruct (hover_drives_visible noExtern (sampleContext (VString "ltr"))
              sampleVisibles 1%positive "ant-tooltip" "ant-slider"
              primitiveInfo singleHeap singleProps ∅ (VString "40"))
    as (_ & Hleft & _); try reflexivity.
  - left. split; reflexivity.
  - exact Hleft.
Defined.

(** ** The placement and the default formatter again *)

(** X13: the tooltip always has a placement.  Whatever the props and the
    direction, the resolved placement is truthy: it is the caller's, or
    one of ["top"], ["left"] and ["right"]; and resolving a resolved
    placement changes nothing. *)
Theorem getTooltipPlacement_resolved context tooltipPlacement vertical :
  let placement := getTooltipPlacement context tooltipPlacement vertical in
  truthy placement = true ∧
  (placement = tooltipPlacement ∨ placement = VString "top"
   ∨ placement = VString "left" ∨ placement = VString "right") ∧
  (∀ context' vertical',
     getTooltipPlacement context' placement vertical' = placement).
Proof.
  cbv zeta. unfold getTooltipPlacement.
  destruct (truthy tooltipPlacement) eqn:Ht.
  - split; [done|]. split; [by left|]. intros. by rewrite Ht.
  - destruct (truthy vertical); simpl;
      [destruct (strict_eq (direction context) (VString "rtl"))|];
      (split; [done|]); (split; [naive_solver|]); done.
Qed.

Lemma append_nonempty_l (a b : string) : a ≠ "" → a +:+ b ≠ "".
Proof. by destruct a. Qed.

Lemma append_nonempty_r (a b : string) : b ≠ "" → a +:+ b ≠ "".
Proof. by destruct a, b. Qed.

Lemma digitsOf_nonempty s : digitsOf s ≠ "".
Proof.
  unfold digitsOf, NilZero.string_of_int, NilZero.string_of_uint.
  destruct (Z.to_int s) as [u|u]; [|done]. by destruct u.
Qed.

Lemma formatDigits_nonempty s k n : formatDigits s k n ≠ "".
Proof.
  unfold formatDigits. cbv zeta.
  pose proof (digitsOf_nonempty s) as HD.
  repeat case_match;
    first [ by apply append_nonempty_l
          | apply append_nonempty_r; simpl; discriminate
          | simpl; discriminate ].
Qed.

(** [toString] never gives the empty string. *)
Lemma Number_toString_nonempty x : Number_toString x ≠ "".
Proof.
  destruct x as [|b|b|negative m e].
  - done.
  - by destruct b.
  - done.
  - cbn [Number_toString]. destruct (significand m e) as [M E]. cbv zeta.
    destruct (shortest M E 17 1 _) as [[s k] n].
    apply append_nonempty_r, formatDigits_nonempty.
Qed.

(** X14: the titles of the default formatter.  The result is always a
    string, and it is the empty string exactly for the inputs that are
    no numbers.  A title does not tell all numbers apart: the two zeros
    both read ["0"]; and a value that is not a number of the slider's
    range still has a title, as [NaN] has. *)
Theorem tipFormatter_titles :
  (∀ v, ∃ s, tipFormatter v = VString s) ∧
  (∀ v, tipFormatter v = VString "" ↔ typeof v ≠ "number") ∧
  tipFormatter (VNumber (Zero false)) = VString "0" ∧
  tipFormatter (VNumber (Zero true)) = VString "0" ∧
  tipFormatter (VNumber NaN) = VString "NaN".
Proof.
  split; [|split; [|split; [|split]]]; try reflexivity.
  - intros v. destruct v; by eexists.
  - intros v. destruct v as [| | | x | | |]; try done.
    cbn [tipFormatter typeof]. split; [|done].
    intros [= E]. by apply Number_toString_nonempty in E.
Qed.

Lemma tipFormatter_titles_witness : tipFormatter (VBool true) = VString "".
Proof.
  destruct tipFormatter_titles as (_ & Hempty & _).
  apply Hempty. discriminate.
Defined.
